(** * Entorno-Desarrollo: the interactive set-up assistant of [main.py]

    A shallow embedding of [main.py].  The program is a straight line of
    prompts, file-system tests and child processes, so the embedding is a
    state-and-exception monad over an explicit [World]:

    - text is [string], read as the UTF-8 bytes of a Python [str];
    - the file system is a tree of directories with ordered entries;
    - child processes, the [PATH], the temporary-name generator and the
      [.env] reader are the [Host], an arbitrary parameter of every function;
    - every [print], [input] and [subprocess.run] leaves an event in the
      trace of the world, oldest first. *)

From Stdlib Require Import String Ascii List Bool NArith ZArith Lia.
Import ListNotations.

Local Open Scope string_scope.
Local Open Scope list_scope.

(** ** Python strings *)

Module PyStr.

Definition nl : string := String "010"%char EmptyString.

Definition code (c : ascii) : N := N_of_ascii c.

(** One-byte white space of [str.isspace]: U+0009..U+000D, U+001C..U+001F
    and U+0020. *)
Definition space1 (c : ascii) : bool :=
  let n := code c in
  ((9 <=? n) && (n <=? 13) || (28 <=? n) && (n <=? 32))%N.

(** Two-byte white space: U+0085 (C2 85) and U+00A0 (C2 A0). *)
Definition space2 (c1 c2 : ascii) : bool :=
  ((code c1 =? 194) && ((code c2 =? 133) || (code c2 =? 160)))%N.

(** Three-byte white space: U+1680 (E1 9A 80), U+2000..U+200A
    (E2 80 80..8A), U+2028, U+2029, U+202F (E2 80 A8, A9, AF),
    U+205F (E2 81 9F) and U+3000 (E3 80 80). *)
Definition space3 (c1 c2 c3 : ascii) : bool :=
  let a := code c1 in
  let b := code c2 in
  let c := code c3 in
  (((a =? 225) && (b =? 154) && (c =? 128))
   || ((a =? 226) && (b =? 128)
       && (((128 <=? c) && (c <=? 138)) || (c =? 168) || (c =? 169) || (c =? 175)))
   || ((a =? 226) && (b =? 129) && (c =? 159))
   || ((a =? 227) && (b =? 128) && (c =? 128)))%N.

(** [str.lstrip()] on the byte list of the text. *)
Fixpoint lstrip_bytes (s : list ascii) : list ascii :=
  match s with
  | [] => []
  | c1 :: s1 =>
      if space1 c1 then lstrip_bytes s1
      else
        match s1 with
        | [] => s
        | c2 :: s2 =>
            if space2 c1 c2 then lstrip_bytes s2
            else
              match s2 with
              | [] => s
              | c3 :: s3 => if space3 c1 c2 c3 then lstrip_bytes s3 else s
              end
        end
  end.

(** [str.rstrip()], on the reversed byte list: the encodings are met last
    byte first. *)
Fixpoint rstrip_rev (s : list ascii) : list ascii :=
  match s with
  | [] => []
  | c1 :: s1 =>
      if space1 c1 then rstrip_rev s1
      else
        match s1 with
        | [] => s
        | c2 :: s2 =>
            if space2 c2 c1 then rstrip_rev s2
            else
              match s2 with
              | [] => s
              | c3 :: s3 => if space3 c3 c2 c1 then rstrip_rev s3 else s
              end
        end
  end.

(** [str.strip()]. *)
Definition strip (s : string) : string :=
  string_of_list_ascii
    (rev (rstrip_rev (rev (lstrip_bytes (list_ascii_of_string s))))).

Definition lower_char (c : ascii) : ascii :=
  let n := code c in
  if ((65 <=? n) && (n <=? 90))%N then ascii_of_N (n + 32) else c.

(** [str.lower()] on the letters A..Z.  Python also folds the cased letters
    outside ASCII; none of them folds to the letter s, and this program
    uses [lower()] only to compare the answer with ['s']. *)
Fixpoint lower (s : string) : string :=
  match s with
  | EmptyString => EmptyString
  | String c s' => String (lower_char c) (lower s')
  end.

Definition is_empty (s : string) : bool :=
  match s with EmptyString => true | _ => false end.

(** [s.startswith('/')] and [s.endswith('/')]. *)
Definition starts_with_slash (s : string) : bool :=
  match s with String c _ => Ascii.eqb c "/" | EmptyString => false end.

Fixpoint ends_with_slash (s : string) : bool :=
  match s with
  | EmptyString => false
  | String c EmptyString => Ascii.eqb c "/"
  | String _ s' => ends_with_slash s'
  end.

(** [s.split('/')]. *)
Fixpoint split_slash (s : string) : list string :=
  match s with
  | EmptyString => [EmptyString]
  | String c s' =>
      if Ascii.eqb c "/" then EmptyString :: split_slash s'
      else
        match split_slash s' with
        | [] => [String c EmptyString]
        | x :: xs => String c x :: xs
        end
  end.

(** The number of slashes [s] starts with. *)
Fixpoint leading_slashes (s : string) : nat :=
  match s with
  | String c s' => if Ascii.eqb c "/" then S (leading_slashes s') else 0
  | EmptyString => 0
  end.

(** ['/'.join(l)]. *)
Definition join_slash (l : list string) : string := String.concat "/" l.

(** [c in s]. *)
Fixpoint contains (c : ascii) (s : string) : bool :=
  match s with
  | EmptyString => false
  | String c' s' => Ascii.eqb c' c || contains c s'
  end.

Definition hex_digit (n : N) : ascii :=
  ascii_of_N (if (n <? 10)%N then 48 + n else 87 + n).

(** One character of [repr(s)] between the quotes [q]: the quote and the
    backslash are escaped, the control characters of ASCII are written
    [\t], [\n], [\r] or [\xNN].  Bytes from 128 on are parts of characters
    outside ASCII, which are taken for printable and kept. *)
Definition repr_char (q c : ascii) : string :=
  let n := code c in
  if Ascii.eqb c q || Ascii.eqb c "\" then String "\" (String c EmptyString)
  else if (n =? 9)%N then "\t"
  else if (n =? 10)%N then "\n"
  else if (n =? 13)%N then "\r"
  else if (n <? 32)%N || (n =? 127)%N then
    String "\" (String "x" (String (hex_digit (n / 16))
                                  (String (hex_digit (n mod 16)) EmptyString)))
  else String c EmptyString.

Fixpoint repr_body (q : ascii) (s : string) : string :=
  match s with
  | EmptyString => EmptyString
  | String c s' => repr_char q c ++ repr_body q s'
  end.

(** [repr(s)]: in single quotes, or in double quotes when [s] has a single
    quote and no double one. *)
Definition repr (s : string) : string :=
  let dq := "034"%char in
  let q := if contains "'" s && negb (contains dq s) then dq else "'"%char in
  String q (repr_body q s) ++ String q EmptyString.

(** ['\0' in s]: a path with a NUL byte cannot be given to the system. *)
Fixpoint has_nul (s : string) : bool :=
  match s with
  | EmptyString => false
  | String c s' => Ascii.eqb c "000" || has_nul s'
  end.

End PyStr.

(** ** Python dictionaries with string keys

    Insertion-ordered, as [dict] is: assigning to a key that is present keeps
    its place, assigning to a new key appends it. *)

Module PyDict.

Definition t : Type := list (string * string).

Definition empty : t := [].

Fixpoint get (k : string) (d : t) : option string :=
  match d with
  | [] => None
  | (k', v) :: d' => if String.eqb k k' then Some v else get k d'
  end.

(** [k in d]. *)
Definition mem (k : string) (d : t) : bool :=
  match get k d with Some _ => true | None => false end.

(** [d[k] = v]. *)
Fixpoint set (k v : string) (d : t) : t :=
  match d with
  | [] => [(k, v)]
  | (k', v') :: d' =>
      if String.eqb k k' then (k, v) :: d' else (k', v') :: set k v d'
  end.

(** [d.items()]. *)
Definition items (d : t) : list (string * string) := d.

(** Truth value of a dictionary: it has an entry. *)
Definition truthy (d : t) : bool :=
  match d with [] => false | _ => true end.

End PyDict.

(** ** The file system

    A directory is a list of named entries in listing order
    ([os.scandir]); it records whether entries may be created in it.  There
    are no symbolic links, and a regular file has no content here: the
    program only tests for existence.  The limits are those of Linux: a
    name holds at most [NAME_MAX] bytes and no NUL byte, so that no other
    name is found or created, and nothing is created at a path of
    [PATH_MAX] bytes or more. *)

Module Fs.

#[warnings="-register-all"]
Inductive node : Type :=
| File
| Dir (writable : bool) (entries : list (string * node)).

Inductive errno : Type := ENOENT | ENOTDIR | EEXIST | EACCES | ENAMETOOLONG.

Definition NAME_MAX : N := 255.

Definition PATH_MAX : N := 4096.

(** A name a directory can hold. *)
Definition fits (c : string) : bool :=
  (N.of_nat (String.length c) <=? NAME_MAX)%N && negb (PyStr.has_nul c).

Inductive answer (A : Type) : Type :=
| Good (a : A)
| Bad (e : errno).
Arguments Good {A} a.
Arguments Bad {A} e.

Fixpoint assoc (k : string) (es : list (string * node)) : option node :=
  match es with
  | [] => None
  | (k', n) :: es' => if String.eqb k' k then Some n else assoc k es'
  end.

(** The node at a normalised path from [n] (names only, outermost first).
    No directory holds a name that does not fit, so none is found. *)
Fixpoint find (n : node) (p : list string) : option node :=
  match p with
  | [] => Some n
  | c :: p' =>
      match n with
      | File => None
      | Dir _ es =>
          if fits c then
            match assoc c es with
            | Some n' => find n' p'
            | None => None
            end
          else None
      end
  end.

(** Apply [f] to the first entry named [c]. *)
Fixpoint alter (f : node -> node) (c : string) (es : list (string * node))
  : list (string * node) :=
  match es with
  | [] => []
  | (k, n) :: es' =>
      if String.eqb k c then (k, f n) :: es' else (k, n) :: alter f c es'
  end.

(** Add an empty directory at [p]; it is writable, as a directory made
    with the usual file-creation mask is for its owner. *)
Fixpoint add_dir (n : node) (p : list string) {struct p} : node :=
  match p with
  | [] => n
  | [c] =>
      match n with
      | File => n
      | Dir wr es => Dir wr (es ++ [(c, Dir true [])])
      end
  | c :: p' =>
      match n with
      | File => n
      | Dir wr es => Dir wr (alter (fun n' => add_dir n' p') c es)
      end
  end.

(** Remove the entry at [p] with everything below it. *)
Fixpoint remove (n : node) (p : list string) {struct p} : node :=
  match p with
  | [] => n
  | [c] =>
      match n with
      | File => n
      | Dir wr es =>
          Dir wr (filter (fun e => negb (String.eqb (fst e) c)) es)
      end
  | c :: p' =>
      match n with
      | File => n
      | Dir wr es => Dir wr (alter (fun n' => remove n' p') c es)
      end
  end.

(** The components of a path string: [a//b/] has components [a], [b]. *)
Definition components (s : string) : list string :=
  filter (fun c => negb (PyStr.is_empty c)) (PyStr.split_slash s).

(** Path resolution as the kernel does it: from the directory [cur], every
    component is looked up in a directory that must exist; [.] stays and
    [..] goes to the parent.  The result is the normalised path of the
    target, which itself may be missing. *)
Fixpoint walk (root : node) (cur : list string) (cs : list string)
  : answer (list string) :=
  match cs with
  | [] => Good cur
  | c :: cs' =>
      match find root cur with
      | Some (Dir _ _) =>
          if String.eqb c "." then walk root cur cs'
          else if String.eqb c ".." then walk root (removelast cur) cs'
          else walk root (cur ++ [c]) cs'
      | Some File => Bad ENOTDIR
      | None => Bad ENOENT
      end
  end.

(** Lexical normalisation ([os.path.normpath] of an absolute path). *)
Fixpoint normalise (cur : list string) (cs : list string) : list string :=
  match cs with
  | [] => cur
  | c :: cs' =>
      if String.eqb c "." then normalise cur cs'
      else if String.eqb c ".." then normalise (removelast cur) cs'
      else normalise (cur ++ [c]) cs'
  end.

(** The directory a path starts from.  [cwd] is what [os.getcwd()]
    returns: absolute, and normalised already. *)
Definition start (cwd : string) (p : string) : list string :=
  if PyStr.starts_with_slash p then [] else normalise [] (components cwd).

Definition resolve (root : node) (cwd : string) (p : string)
  : answer (list string) :=
  if PyStr.is_empty p then Bad ENOENT
  else walk root (start cwd p) (components p).

(** [os.stat]; a trailing slash asks for a directory. *)
Definition stat (root : node) (cwd : string) (p : string) : answer node :=
  match resolve root cwd p with
  | Bad e => Bad e
  | Good q =>
      match find root q with
      | None => Bad ENOENT
      | Some File => if PyStr.ends_with_slash p then Bad ENOTDIR else Good File
      | Some n => Good n
      end
  end.

(** [os.path.exists], [os.path.isdir] and [os.path.isfile]. *)
Definition exists_ (root : node) (cwd : string) (p : string) : bool :=
  match stat root cwd p with Good _ => true | Bad _ => false end.

Definition isdir (root : node) (cwd : string) (p : string) : bool :=
  match stat root cwd p with Good (Dir _ _) => true | _ => false end.

Definition isfile (root : node) (cwd : string) (p : string) : bool :=
  match stat root cwd p with Good File => true | _ => false end.

(** A path too long to be given to the system. *)
Definition too_long (p : string) : bool :=
  (PATH_MAX <=? N.of_nat (String.length p))%N.

(** [os.mkdir]: one level, the parent must exist.  Nothing is created
    under a name of more than [NAME_MAX] bytes or at a path of [PATH_MAX]
    bytes or more: the lookup of the new name fails with [ENAMETOOLONG],
    before the permission of the parent is asked.  (A path with a NUL byte
    does not come this far: [os.mkdir] raises [ValueError] for it before
    the system is called, see [os_mkdir].) *)
Definition mkdir (root : node) (cwd : string) (p : string) : answer node :=
  match resolve root cwd p with
  | Bad e => Bad e
  | Good q =>
      match find root q with
      | Some _ => Bad EEXIST
      | None =>
          if negb (fits (last q "")) || too_long p then Bad ENAMETOOLONG
          else
            match find root (removelast q) with
            | Some (Dir true _) => Good (add_dir root q)
            | Some (Dir false _) => Bad EACCES
            | Some File => Bad ENOTDIR
            | None => Bad ENOENT
            end
      end
  end.

(** Removal of a tree that never fails, as [TemporaryDirectory.cleanup]
    does it (a missing tree is ignored, permissions are reset). *)
Definition rmtree (root : node) (cwd : string) (p : string) : node :=
  match resolve root cwd p with
  | Good q => remove root q
  | Bad _ => root
  end.

Definition names_of (dirs : bool) (es : list (string * node)) : list string :=
  map fst
      (filter (fun e => match snd e with
                        | Dir _ _ => dirs
                        | File => negb dirs
                        end) es).

(** [os.walk(top)], top-down: for the directory at [rel] below the top,
    the triple of [rel], its subdirectory names and its file names, then
    the same for each subdirectory in turn. *)
Fixpoint walk_tree (rel : list string) (n : node)
  : list (list string * list string * list string) :=
  match n with
  | File => []
  | Dir _ es =>
      (rel, names_of true es, names_of false es)
        :: flat_map (fun e => walk_tree (rel ++ [fst e]) (snd e)) es
  end.

End Fs.

(** ** The world of a run *)

(** A child process: an argument vector, or a line given to the shell
    ([shell=True]). *)
Inductive command : Type :=
| Argv (args : list string)
| Shell (line : string).

Inductive event : Type :=
| Printed (text : string)      (* print(text) *)
| Asked (prompt : string)      (* input(prompt) *)
| Spawned (cmd : command).     (* subprocess.run(cmd, ...) *)

(** The exceptions the program can meet.  [OSError] carries the error number
    and the file name: [PermissionError] is [OSError EACCES],
    [FileNotFoundError] is [OSError ENOENT], [FileExistsError] is
    [OSError EEXIST].  [ValueError] is not an [OSError]: no
    [except OSError] clause catches it. *)
Inductive exn : Type :=
| CalledProcessError (returncode : Z) (stderr : option string)
| OSError (e : Fs.errno) (filename : string)
| EOFError
| ValueError (message : string).

Record World : Type := mkWorld {
  stdin : list string;               (* the lines input() has still to read *)
  trace : list event;                (* what the run has done, oldest first *)
  root : Fs.node;                    (* the file system *)
  cwd : string;                      (* os.getcwd() *)
  environ : list (string * string)   (* os.environ entries set by the run *)
}.

(** How a child process ends: it exits with a status and a standard error
    text, leaving the file system in some state, or it cannot be started
    (the program is not installed, for one). *)
Inductive outcome : Type :=
| Exited (returncode : Z) (stderr : string) (root' : Fs.node)
| NotStarted (e : exn).

(** What the run does not decide. *)
Record Host : Type := mkHost {
  os_name : string;                              (* os.name *)
  sys_executable : string;                       (* sys.executable *)
  path_dirs : list string;                       (* the directories of PATH *)
  tempdir : string;                              (* tempfile.gettempdir() *)
  temp_names : list string;                      (* the random names mkdtemp tries *)
  run_process : command -> World -> outcome;     (* the child processes *)
  dotenv_values : string -> World -> list (string * string)
                                                 (* the entries load_dotenv sets *)
}.

Inductive result (A : Type) : Type :=
| Return (a : A)
| Raise (e : exn).
Arguments Return {A} a.
Arguments Raise {A} e.

(** A computation: from a world to a value or an exception, and the world it
    leaves.  An exception keeps the effects made before it. *)
Definition M (A : Type) : Type := World -> result A * World.

Definition ret {A : Type} (a : A) : M A := fun w => (Return a, w).

Definition raise {A : Type} (e : exn) : M A := fun w => (Raise e, w).

Definition bind {A B : Type} (m : M A) (k : A -> M B) : M B :=
  fun w =>
    match m w with
    | (Return a, w') => k a w'
    | (Raise e, w') => (Raise e, w')
    end.

(** [try: body except ...]: [handler e] is the clause that catches [e], if
    there is one. *)
Definition try_except {A : Type} (body : M A) (handler : exn -> option (M A))
  : M A :=
  fun w =>
    match body w with
    | (Return a, w') => (Return a, w')
    | (Raise e, w') =>
        match handler e with
        | Some h => h w'
        | None => (Raise e, w')
        end
    end.

(** [try: body finally: final]. *)
Definition try_finally {A : Type} (body : M A) (final : M unit) : M A :=
  fun w =>
    match body w with
    | (r, w') =>
        match final w' with
        | (Return _, w'') => (r, w'')
        | (Raise e, w'') => (Raise e, w'')
        end
    end.

Declare Scope py_scope.
Delimit Scope py_scope with py.
Notation "x <- m ;; k" := (bind m (fun x => k))
  (at level 100, m at next level, right associativity) : py_scope.
Notation "m ;; k" := (bind m (fun _ => k))
  (at level 100, right associativity) : py_scope.
Local Open Scope py_scope.

Definition log (e : event) (w : World) : World :=
  mkWorld (stdin w) (trace w ++ [e]) (root w) (cwd w) (environ w).

Definition with_root (r : Fs.node) (w : World) : World :=
  mkWorld (stdin w) (trace w) r (cwd w) (environ w).

(** [print(text)]. *)
Definition print (text : string) : M unit :=
  fun w => (Return tt, log (Printed text) w).

(** [input(prompt)]: the prompt is shown, then a line is read; at the end of
    the input [EOFError] is raised. *)
Definition input (prompt : string) : M string :=
  fun w =>
    match stdin w with
    | [] => (Raise EOFError, log (Asked prompt) w)
    | line :: rest =>
        (Return line,
         mkWorld rest (trace w ++ [Asked prompt]) (root w) (cwd w) (environ w))
    end.

(** Events of one kind, for statements about a run. *)
Definition commands_in (t : list event) : list command :=
  flat_map (fun e => match e with Spawned c => [c] | _ => [] end) t.

Definition prompts_in (t : list event) : list string :=
  flat_map (fun e => match e with Asked q => [q] | _ => [] end) t.

Definition spawned (w : World) : list command := commands_in (trace w).

Definition asked (w : World) : list string := prompts_in (trace w).

(** [for x in l: body(x)]. *)
Fixpoint for_each {A : Type} (l : list A) (body : A -> M unit) : M unit :=
  match l with
  | [] => ret tt
  | x :: l' => body x ;; for_each l' body
  end.

(** ** The library calls the program makes *)

Section Library.

Variable host : Host.

(** [subprocess.run(cmd, check=check, capture_output=capture)]: the value
    is the exit status.  With [check], a status other than zero raises
    [CalledProcessError]; its [stderr] is there only when captured. *)
Definition subprocess_run (cmd : command) (check capture : bool) : M Z :=
  fun w =>
    let w1 := log (Spawned cmd) w in
    match run_process host cmd w with
    | NotStarted e => (Raise e, w1)
    | Exited rc err r =>
        let w2 := with_root r w1 in
        if check && negb (rc =? 0)%Z
        then (Raise (CalledProcessError rc (if capture then Some err else None)), w2)
        else (Return rc, w2)
    end.

(** [os.path.join(a, b)]. *)
Definition os_path_join (a b : string) : string :=
  if PyStr.starts_with_slash b then b
  else if PyStr.is_empty a || PyStr.ends_with_slash a then a ++ b
  else a ++ "/" ++ b.

Definition os_path_exists (p : string) : M bool :=
  fun w => (Return (Fs.exists_ (root w) (cwd w) p), w).

Definition os_path_isdir (p : string) : M bool :=
  fun w => (Return (Fs.isdir (root w) (cwd w) p), w).

Definition os_path_isfile (p : string) : M bool :=
  fun w => (Return (Fs.isfile (root w) (cwd w) p), w).

(** [os.mkdir(p)]: a path with a NUL byte is refused with [ValueError]
    when the argument is converted, before the system is called. *)
Definition os_mkdir (p : string) : M unit :=
  fun w =>
    if PyStr.has_nul p then (Raise (ValueError "embedded null byte"), w)
    else
      match Fs.mkdir (root w) (cwd w) p with
      | Fs.Good r => (Return tt, with_root r w)
      | Fs.Bad e => (Raise (OSError e p), w)
      end.

(** The string of a path given by its components. *)
Definition unparse (absolute : bool) (cs : list string) : string :=
  (if absolute then "/" else "") ++ PyStr.join_slash cs.

(** The last step of [os.makedirs]:
    [try: mkdir(name) except OSError: if not exist_ok or not isdir(name): raise]. *)
Definition makedirs_leaf (name : string) (exist_ok : bool) : M unit :=
  try_except (os_mkdir name)
    (fun e =>
       match e with
       | OSError _ _ =>
           Some (d <- os_path_isdir name ;;
                 if negb exist_ok || negb d then raise e else ret tt)
       | _ => None
       end).

(** [os.makedirs(name, exist_ok=exist_ok)], by recursion on the components
    of [name], last first: [tail] is the last component and [head] the
    path before it.  [head] is rebuilt from its components, so it is
    written without doubled slashes. *)
Fixpoint makedirs_from (absolute : bool) (rcs : list string) (name : string)
         (exist_ok : bool) : M unit :=
  match rcs with
  | [] => makedirs_leaf name exist_ok
  | tail :: rhead =>
      let head := unparse absolute (rev rhead) in
      there <- os_path_exists head ;;
      if negb (PyStr.is_empty head) && negb there then
        try_except (makedirs_from absolute rhead head exist_ok)
          (fun e =>
             match e with
             | OSError Fs.EEXIST _ => Some (ret tt)
             | _ => None
             end) ;;
        if String.eqb tail "." then ret tt
        else makedirs_leaf name exist_ok
      else makedirs_leaf name exist_ok
  end.

Definition os_makedirs (name : string) (exist_ok : bool) : M unit :=
  makedirs_from (PyStr.starts_with_slash name)
                (rev (Fs.components name)) name exist_ok.

(** [os.path.abspath(p)], that is [normpath(join(getcwd(), p))], on the
    components; exactly two leading slashes are kept, as POSIX allows. *)
Definition os_path_abspath (p : string) : M string :=
  fun w =>
    let base := if PyStr.starts_with_slash p then p else cwd w in
    let lead := if Nat.eqb (PyStr.leading_slashes base) 2 then "//" else "/" in
    (Return (lead ++ PyStr.join_slash
                       (Fs.normalise (Fs.start (cwd w) p) (Fs.components p)))%string,
     w).

(** [shutil.which(name)] for a bare program name: the first directory of
    [PATH] that holds a file of that name (every file counts as
    executable). *)
Fixpoint which_in (dirs : list string) (name : string) : M (option string) :=
  match dirs with
  | [] => ret None
  | d :: dirs' =>
      let candidate := os_path_join d name in
      f <- os_path_isfile candidate ;;
      if f then ret (Some candidate) else which_in dirs' name
  end.

Definition shutil_which (name : string) : M (option string) :=
  which_in (path_dirs host) name.

(** Truth value of what [shutil.which] returns. *)
Definition found (r : option string) : bool :=
  match r with
  | Some p => negb (PyStr.is_empty p)
  | None => false
  end.

(** [tempfile.mkdtemp()]: the random names are tried in turn, a name that
    exists is skipped. *)
Fixpoint mkdtemp_try (names : list string) : M string :=
  match names with
  | [] => raise (OSError Fs.EEXIST "No usable temporary directory name found")
  | n :: names' =>
      let file := os_path_join (tempdir host) ("tmp" ++ n) in
      made <- try_except (os_mkdir file ;; ret true)
                (fun e =>
                   match e with
                   | OSError Fs.EEXIST _ => Some (ret false)
                   | _ => None
                   end) ;;
      if made then os_path_abspath file else mkdtemp_try names'
  end.

Definition mkdtemp : M string := mkdtemp_try (temp_names host).

(** [TemporaryDirectory.cleanup()]. *)
Definition cleanup (name : string) : M unit :=
  fun w => (Return tt, with_root (Fs.rmtree (root w) (cwd w) name) w).

(** [with tempfile.TemporaryDirectory() as temp_dir: body]: the directory
    is made on entry and removed on exit, however the body ends. *)
Definition with_TemporaryDirectory {A : Type} (body : string -> M A) : M A :=
  temp_dir <- mkdtemp ;;
  try_finally (body temp_dir) (cleanup temp_dir).

(** [Path(p).name]: the last component, [.] and empty ones apart. *)
Definition path_name (p : string) : string :=
  last (filter (fun c => negb (String.eqb c ".")) (Fs.components p)) "".

(** [os.walk(top)]; a top that is not a directory yields nothing. *)
Definition os_walk (top : string)
  : M (list (list string * list string * list string)) :=
  fun w =>
    (Return (match Fs.stat (root w) (cwd w) top with
             | Fs.Good n => Fs.walk_tree [] n
             | Fs.Bad _ => []
             end), w).

(** [[str(f.relative_to(top)) for f in Path(top).rglob('*') if f.is_file()]]:
    directory by directory in the order of [os.walk], the files of each. *)
Definition rglob_files (top : string) : M (list string) :=
  dirs <- os_walk top ;;
  ret (flat_map
         (fun d => match d with
                   | (rel, _, files) =>
                       map (fun f => PyStr.join_slash (rel ++ [f])) files
                   end) dirs).

(** [load_dotenv(path)]. *)
Definition load_dotenv (path : string) : M unit :=
  fun w =>
    (Return tt,
     mkWorld (stdin w) (trace w) (root w) (cwd w)
             (environ w ++ dotenv_values host path w)).

Definition errno_text (e : Fs.errno) : string :=
  match e with
  | Fs.ENOENT => "[Errno 2] No such file or directory"
  | Fs.EACCES => "[Errno 13] Permission denied"
  | Fs.EEXIST => "[Errno 17] File exists"
  | Fs.ENOTDIR => "[Errno 20] Not a directory"
  | Fs.ENAMETOOLONG => "[Errno 36] File name too long"
  end.

(** [str(e)] for an [OSError] with a file name, which is written as
    [repr] writes it. *)
Definition str_of_OSError (e : Fs.errno) (filename : string) : string :=
  errno_text e ++ ": " ++ PyStr.repr filename.

End Library.

(** ** The program *)

Section Program.

Variable host : Host.

Local Abbreviation nl := PyStr.nl.

(** Truth value of a Python string. *)
Definition truthy (s : string) : bool := negb (PyStr.is_empty s).

Definition verificar_url_repositorio (url : string) : M bool :=
  try_except
    (subprocess_run host (Argv ["git"; "ls-remote"; url]) true true ;;
     ret true)
    (fun e =>
       match e with
       | CalledProcessError _ _ =>
           Some (print "URL no válido o no se pudo conectar al repositorio." ;;
                 ret false)
       | _ => None
       end).

Definition obtener_nombre_y_archivos_repositorio (url : string)
  : M (string * list string) :=
  with_TemporaryDirectory host
    (fun temp_dir =>
       subprocess_run host
         (Argv ["git"; "clone"; "--depth"; "1"; url; temp_dir]) true false ;;
       let repo_name := path_name temp_dir in
       archivos <- rglob_files temp_dir ;;
       ret (repo_name, archivos)).

(** The value is [None] where the source returns [None]. *)
Definition seleccionar_carpeta_clonacion (default_dir : string)
  : M (option string) :=
  print (nl ++ "Carpeta de clonación predeterminada: " ++ default_dir) ;;
  answer <- input "¿Desea cambiar la carpeta de clonación? (s/n): " ;;
  let custom_dir := PyStr.lower (PyStr.strip answer) in
  if String.eqb custom_dir "s" then
    line <- input "Ingrese la ruta de la carpeta deseada: " ;;
    let user_dir := PyStr.strip line in
    try_except
      (os_makedirs user_dir true ;;
       print ("Carpeta de clonación configurada en: " ++ user_dir) ;;
       ret (Some user_dir))
      (fun e =>
         match e with
         | OSError Fs.EACCES _ =>
             Some (print "Error: No tienes permisos para crear la carpeta en esa ubicación." ;;
                   ret None)
         | OSError k f =>
             Some (print ("Error: No se pudo crear la carpeta de clonación. Detalles: "
                            ++ str_of_OSError k f) ;;
                   ret None)
         | _ => None
         end)
  else ret (Some default_dir).

(** For the top directory and every directory named [src] or [lib], the
    files in it, relative to the top. *)
Definition show_file_preview (folder_path : string) : M unit :=
  print (nl ++ "Vista previa de archivos en el proyecto:") ;;
  dirs <- os_walk folder_path ;;
  for_each dirs
    (fun d =>
       match d with
       | (rel, _, files) =>
           (* root == folder_path, or os.path.basename(root) in ["src", "lib"] *)
           if match rel with [] => true | _ => false end
              || existsb (String.eqb (last rel "")) ["src"; "lib"]
           then
             for_each files
               (fun file => print ("-  " ++ PyStr.join_slash (rel ++ [file])))
           else ret tt
       end) ;;
  print (nl ++ "Final de la vista previa de archivos.").

(** The first step of [clone_repository]:
    [if not os.path.exists(destination_folder): os.makedirs(destination_folder)]. *)
Definition create_destination (destination_folder : string) : M unit :=
  there <- os_path_exists destination_folder ;;
  if negb there then os_makedirs destination_folder false else ret tt.

(** The rest of [clone_repository]: the clone and the preview. *)
Definition clone_into (repo_url destination_folder : string) : M bool :=
  cloned <-
    try_except
      (subprocess_run host (Argv ["git"; "clone"; repo_url; destination_folder])
                      true true ;;
       print ("Repositorio clonado con éxito en: " ++ destination_folder) ;;
       ret true)
      (fun e =>
         match e with
         | CalledProcessError _ err =>
             Some (print ("Error al clonar el repositorio: "
                            ++ match err with Some t => t | None => "None" end) ;;
                   ret false)
         | _ => None
         end) ;;
  if cloned then
    show_file_preview destination_folder ;;
    ret true
  else ret false.

Definition clone_repository (repo_url destination_folder : string) : M bool :=
  create_destination destination_folder ;;
  clone_into repo_url destination_folder.

Definition detect_dependencies (project_folder : string) : M PyDict.t :=
  print (nl ++ "--- Detectando dependencias ---") ;;
  let dependencies := PyDict.empty in
  let package_json_path := os_path_join project_folder "package.json" in
  has_package_json <- os_path_exists package_json_path ;;
  dependencies <-
    (if has_package_json then
       print "Archivo de configuración Node.js detectado (package.json)." ;;
       ret (PyDict.set "Node.js" "package.json" dependencies)
     else ret dependencies) ;;
  let requirements_txt_path := os_path_join project_folder "requirements.txt" in
  let pipfile_path := os_path_join project_folder "Pipfile" in
  has_requirements <- os_path_exists requirements_txt_path ;;
  dependencies <-
    (if has_requirements then
       print "Archivo de configuración de Python detectado (requirements.txt)." ;;
       ret (PyDict.set "Python" "requirements.txt" dependencies)
     else
       has_pipfile <- os_path_exists pipfile_path ;;
       if has_pipfile then
         print "Archivo de configuración de Python detectado (Pipfile)." ;;
         ret (PyDict.set "Python" "Pipfile" dependencies)
       else ret dependencies) ;;
  let venv_path := os_path_join project_folder "venv" in
  has_venv <- os_path_exists venv_path ;;
  dependencies <-
    (if has_venv then
       print "Entorno virtual detectado (venv)." ;;
       ret (PyDict.set "Python virtual environment" "venv" dependencies)
     else ret dependencies) ;;
  (if PyDict.truthy dependencies then
     print (nl ++ "--- Resumen de dependencias detectadas ---") ;;
     for_each (PyDict.items dependencies)
       (fun item =>
          match item with
          | (dep, config_file) =>
              print (dep ++ " (configurado en: " ++ config_file ++ ")")
          end)
   else print "No se detectaron dependencias específicas en el proyecto.") ;;
  ret dependencies.

Definition install_dependency
           (dependency_name : string) (install_command : list string)
           (manual_instructions : string) : M unit :=
  print (nl ++ "Se necesita instalar " ++ dependency_name ++ ".") ;;
  answer <- input ("¿Quieres instalar " ++ dependency_name
                     ++ " automáticamente? (s/n): ") ;;
  let choice := PyStr.lower answer in
  if String.eqb choice "s" then
    try_except
      (print ("Instalando " ++ dependency_name ++ "...") ;;
       subprocess_run host (Argv install_command) true false ;;
       print (dependency_name ++ " se instaló correctamente."))
      (fun e =>
         match e with
         | CalledProcessError _ _ =>
             Some (print ("Error: No se pudo instalar " ++ dependency_name
                            ++ " automáticamente."))
         | _ => None
         end)
  else
    print ("Instrucciones para instalar " ++ dependency_name ++ " manualmente:") ;;
    print manual_instructions.

(** The table of the project-level installs: ecosystem, command, manual
    instruction. *)
Definition project_requirements : list (string * (string * string)) :=
  [ ("Node.js",
     ("npm install", "Ejecuta 'npm install' en el directorio del proyecto."));
    ("Python",
     ("pip install -r requirements.txt",
      "Ejecuta 'pip install -r requirements.txt' en el entorno virtual.")) ].

(** The body of the loop over [project_requirements]. *)
Definition project_install (dependencies : PyDict.t)
           (entry : string * (string * string)) : M unit :=
  match entry with
  | (dep, (command, manual_instruction)) =>
      if PyDict.mem dep dependencies then
        print (nl ++ "Para completar la instalación de " ++ dep ++ ":") ;;
        answer <- input ("¿Quieres ejecutar '" ++ command
                           ++ "' automáticamente? (s/n): ") ;;
        let choice := PyStr.lower answer in
        if String.eqb choice "s" then
          subprocess_run host (Shell command) false false ;;
          print (dep ++ " se configuró correctamente.")
        else print ("Instrucción: " ++ manual_instruction)
      else ret tt
  end.

(** The second half of [install_required_dependencies]: the loop. *)
Definition install_project_requirements (dependencies : PyDict.t) : M unit :=
  for_each project_requirements (project_install dependencies).

Definition install_required_dependencies (dependencies : PyDict.t) : M unit :=
  git <- shutil_which host "git" ;;
  if negb (found git) then
    print "Error: Git no está instalado. Por favor, instala Git y vuelve a intentarlo."
  else
    (if PyDict.mem "Node.js" dependencies then
       node <- shutil_which host "node" ;;
       (* "or" evaluates its second operand only when the first is false *)
       missing <- (if negb (found node) then ret true
                   else npm <- shutil_which host "npm" ;; ret (negb (found npm))) ;;
       if (missing : bool) then
         install_dependency "Node.js y npm" ["npm"; "install"; "-g"; "node"]
           "Visita https://nodejs.org para descargar e instalar Node.js y npm."
       else print "Node.js y npm ya están instalados."
     else ret tt) ;;
    (if PyDict.mem "Python" dependencies then
       python3 <- shutil_which host "python3" ;;
       (if negb (found python3) then
          install_dependency "Python" ["apt-get"; "install"; "python3"]
            "Instala Python desde https://www.python.org/ para obtener la versión adecuada."
        else ret tt) ;;
       pip <- shutil_which host "pip" ;;
       if negb (found pip) then
         install_dependency "pip" ["python3"; "-m"; "ensurepip"; "--upgrade"]
           "Instala pip con el comando 'python3 -m ensurepip --upgrade' o descarga desde https://pip.pypa.io."
       else ret tt
     else ret tt) ;;
    install_project_requirements dependencies.

Definition setup_python_virtualenv : M unit :=
  there <- os_path_exists "venv" ;;
  (if negb there then
     print "Creando entorno virtual en Python..." ;;
     subprocess_run host (Argv [sys_executable host; "-m"; "venv"; "venv"])
                    true false ;;
     print "Entorno virtual creado."
   else print "El entorno virtual ya existe.") ;;
  let activate_script :=
    if String.eqb (os_name host) "nt"
    then "venv\Scripts\activate.bat"
    else "source venv/bin/activate" in
  print ("Para activar el entorno virtual, ejecute: " ++ activate_script).

Definition setup_environment_variables : M unit :=
  there <- os_path_exists ".env" ;;
  if there then
    print "Cargando variables de entorno desde el archivo .env..." ;;
    load_dotenv host ".env" ;;
    print "Variables de entorno configuradas."
  else
    print "No se encontró un archivo .env. Puedes crear uno para definir variables de entorno.".

Definition install_python_dependencies : M unit :=
  there <- os_path_exists "requirements.txt" ;;
  if there then
    print "Se detectó requirements.txt. Instalando dependencias de Python..." ;;
    subprocess_run host
      (Argv ["venv/bin/pip"; "install"; "-r"; "requirements.txt"]) true false ;;
    print "Dependencias de Python instaladas correctamente."
  else
    print "No se detectó requirements.txt. Saltando instalación de dependencias de Python.".

Definition install_node_dependencies : M unit :=
  there <- os_path_exists "package.json" ;;
  if there then
    print "Se detectó package.json. Instalando dependencias de Node.js..." ;;
    subprocess_run host (Argv ["npm"; "install"]) true false ;;
    print "Dependencias de Node.js instaladas correctamente."
  else
    print "No se detectó package.json. Saltando instalación de dependencias de Node.js.".

(** Steps 7 to 12 of [main], after a clone that succeeded. *)
Definition configure_project (carpeta_clonacion : string) : M unit :=
  print "Repositorio clonado exitosamente." ;;
  dependencies <- detect_dependencies carpeta_clonacion ;;
  install_required_dependencies dependencies ;;
  setup_python_virtualenv ;;
  setup_environment_variables ;;
  install_python_dependencies ;;
  install_node_dependencies.

Definition main : M unit :=
  print "Bienvenido al asistente de configuración de su entorno de desarrollo." ;;
  line <- input "Ingrese el URL del repositorio de Git: " ;;
  let url := PyStr.strip line in
  valid <- verificar_url_repositorio url ;;
  if valid then
    print (nl ++ "URL verificado correctamente.") ;;
    probe <- obtener_nombre_y_archivos_repositorio url ;;
    match probe with
    | (nombre, archivos) =>
        if truthy nombre && match archivos with [] => false | _ => true end then
          print (nl ++ "Nombre del repositorio: " ++ nombre) ;;
          print "Archivos del repositorio (vista previa de 10 archivos):" ;;
          for_each (firstn 10 archivos)
                   (fun archivo => print ("  - " ++ archivo)) ;;
          carpeta <- (fun w => seleccionar_carpeta_clonacion (cwd w) w) ;;
          match carpeta with
          | Some carpeta_clonacion =>
              if truthy carpeta_clonacion then
                print (nl ++ "El repositorio se clonará en: " ++ carpeta_clonacion) ;;
                input (nl ++ "Configuración inicial completada. Presione Enter para continuar con la clonación...") ;;
                cloned <- clone_repository url carpeta_clonacion ;;
                if cloned then configure_project carpeta_clonacion
                else ret tt
              else
                print "Error al seleccionar la carpeta de clonación. Proceso terminado."
          | None =>
              print "Error al seleccionar la carpeta de clonación. Proceso terminado."
          end
        else
          print "No se pudieron obtener los detalles del repositorio. Proceso terminado."
    end
  else print "Proceso terminado. Verifique el URL e intente de nuevo.".

End Program.

(** ** Vocabulary of the statements *)

(** An answer that [.strip().lower() == 's'] accepts, and one that
    [.lower() == 's'] accepts. *)
Definition yes_stripped (answer : string) : bool :=
  String.eqb (PyStr.lower (PyStr.strip answer)) "s".

Definition yes_unstripped (answer : string) : bool :=
  String.eqb (PyStr.lower answer) "s".

(** A path component: it is not empty and has no slash in it. *)
Fixpoint no_slash (s : string) : bool :=
  match s with
  | EmptyString => true
  | String c s' => negb (Ascii.eqb c "/") && no_slash s'
  end.


Definition component (c : string) : bool :=
  negb (PyStr.is_empty c) && no_slash c.

(** A name: a component other than [.] and [..]. *)
Definition plain_name (c : string) : bool :=
  component c && negb (String.eqb c ".") && negb (String.eqb c "..").

(** The worlds differ at most in the file system. *)
Definition same_but_root (w w' : World) : Prop :=
  stdin w' = stdin w /\ trace w' = trace w /\ cwd w' = cwd w
  /\ environ w' = environ w.

Definition ls_remote (url : string) : command := Argv ["git"; "ls-remote"; url].

(** The child process ran and left a status other than zero. *)
Definition exits_nonzero (o : outcome) : Prop :=
  match o with
  | Exited rc _ _ => rc <> 0%Z
  | NotStarted _ => False
  end.

(** The child process ran, whatever its status. *)
Definition exited (o : outcome) : Prop :=
  match o with
  | Exited _ _ _ => True
  | NotStarted _ => False
  end.

(** What one round of the project-level install loop is expected to leave
    in the trace, given the answer to its prompt. *)
Definition project_events (entry : string * (string * string)) (answer : string)
  : list event :=
  match entry with
  | (dep, (command, manual_instruction)) =>
      [ Printed (PyStr.nl ++ "Para completar la instalación de " ++ dep ++ ":")%string;
        Asked ("¿Quieres ejecutar '" ++ command ++ "' automáticamente? (s/n): ")%string ]
        ++ (if yes_unstripped answer
            then [ Spawned (Shell command);
                   Printed (dep ++ " se configuró correctamente.")%string ]
            else [ Printed ("Instrucción: " ++ manual_instruction)%string ])
  end.

(** The entries of the install table whose ecosystem was detected. *)
Definition detected_requirements (dependencies : PyDict.t)
  : list (string * (string * string)) :=
  filter (fun entry => PyDict.mem (fst entry) dependencies) project_requirements.



Definition venv_command (host : Host) : command :=
  Argv [sys_executable host; "-m"; "venv"; "venv"].

(** The world of [main] once the URL has been read. *)
Definition after_url_prompt (w : World) (rest : list string) : World :=
  mkWorld rest
    (trace w
       ++ [Printed "Bienvenido al asistente de configuración de su entorno de desarrollo.";
           Asked "Ingrese el URL del repositorio de Git: "])
    (root w) (cwd w) (environ w).

(** The world of [main] when the real clone starts: the probe has been
    shown, the default destination kept and Enter pressed. *)
Definition before_clone (w : World) (nombre : string) (archivos : list string)
           (rest : list string) : World :=
  mkWorld rest
    (trace w
       ++ [Printed (PyStr.nl ++ "Nombre del repositorio: " ++ nombre)%string;
           Printed "Archivos del repositorio (vista previa de 10 archivos):"]
       ++ map (fun archivo => Printed ("  - " ++ archivo)%string) (firstn 10 archivos)
       ++ [Printed (PyStr.nl ++ "Carpeta de clonación predeterminada: " ++ cwd w)%string;
           Asked "¿Desea cambiar la carpeta de clonación? (s/n): ";
           Printed (PyStr.nl ++ "El repositorio se clonará en: " ++ cwd w)%string;
           Asked (PyStr.nl ++ "Configuración inicial completada. Presione Enter para continuar con la clonación...")%string])
    (root w) (cwd w) (environ w).


(** A concrete machine for the examples: a writable home directory, a
    read-only [/usr] with git installed, and child processes given by
    [run]. *)
Module Example.

(** The disk, given the entries of the home directory [/home/u]. *)
Definition disk_with (home : list (string * Fs.node)) : Fs.node :=
  Fs.Dir true
    [ ("tmp", Fs.Dir true []);
      ("home", Fs.Dir true [("u", Fs.Dir true home)]);
      ("usr", Fs.Dir false [("bin", Fs.Dir false [("git", Fs.File)])]) ].

Definition disk : Fs.node := disk_with [].

Definition host (run : command -> World -> outcome) : Host :=
  mkHost "posix" "/usr/bin/python3" ["/usr/bin"] "/tmp" ["k3x9_q0a"; "b7w2mm1z"]
         run (fun _ _ => []).

Definition world_with (home : list (string * Fs.node)) (lines : list string)
  : World :=
  mkWorld lines [] (disk_with home) "/home/u" [].

Definition world (lines : list string) : World := world_with [] lines.

(** Every child process exits with [status] and changes nothing. *)
Definition exits (status : Z) : command -> World -> outcome :=
  fun _ w => Exited status "fatal: error" (root w).

(** Add a regular file at [p]. *)
Fixpoint add_file (n : Fs.node) (p : list string) {struct p} : Fs.node :=
  match p with
  | [] => n
  | [c] =>
      match n with
      | Fs.File => n
      | Fs.Dir wr es => Fs.Dir wr (es ++ [(c, Fs.File)])
      end
  | c :: p' =>
      match n with
      | Fs.File => n
      | Fs.Dir wr es => Fs.Dir wr (Fs.alter (fun n' => add_file n' p') c es)
      end
  end.

Definition place (w : World) (p : string) : list string :=
  match Fs.resolve (root w) (cwd w) p with
  | Fs.Good q => q
  | Fs.Bad _ => []
  end.

(** The tools at work: the remote can be listed, a clone leaves one file,
    [README.md], in its target, the interpreter makes [venv]; anything
    else fails. *)
Definition tools (c : command) (w : World) : outcome :=
  match c with
  | Argv ["git"; "ls-remote"; _] => Exited 0 "" (root w)
  | Argv ["git"; "clone"; "--depth"; "1"; _; target] =>
      Exited 0 "" (add_file (root w) (place w target ++ ["README.md"]))
  | Argv ["git"; "clone"; _; target] =>
      Exited 0 "" (add_file (root w) (place w target ++ ["README.md"]))
  | Argv [_; "-m"; "venv"; "venv"] =>
      Exited 0 "" (Fs.add_dir (root w) (place w "venv"))
  | _ => Exited 1 "" (root w)
  end.



End Example.

(** The two clones [main] can start. *)
Definition probe_clone (url temp_dir : string) : command :=
  Argv ["git"; "clone"; "--depth"; "1"; url; temp_dir].

Definition real_clone (url destination_folder : string) : command :=
  Argv ["git"; "clone"; url; destination_folder].



(** [main] from the answer of the Destination Selector on. *)
Definition main_after_selection (host : Host) (url : string)
           (carpeta : option string) : M unit :=
  match carpeta with
  | Some carpeta_clonacion =>
      if truthy carpeta_clonacion then
        print (PyStr.nl ++ "El repositorio se clonará en: " ++ carpeta_clonacion) ;;
        input (PyStr.nl ++ "Configuración inicial completada. Presione Enter para continuar con la clonación...") ;;
        cloned <- clone_repository host url carpeta_clonacion ;;
        if cloned then configure_project host carpeta_clonacion
        else ret tt
      else
        print "Error al seleccionar la carpeta de clonación. Proceso terminado."
  | None =>
      print "Error al seleccionar la carpeta de clonación. Proceso terminado."
  end.

(** [main] from the result of the probe on. *)
Definition main_after_probe (host : Host) (url : string)
           (probe : string * list string) : M unit :=
  match probe with
  | (nombre, archivos) =>
      if truthy nombre && match archivos with [] => false | _ => true end then
        print (PyStr.nl ++ "Nombre del repositorio: " ++ nombre) ;;
        print "Archivos del repositorio (vista previa de 10 archivos):" ;;
        for_each (firstn 10 archivos)
                 (fun archivo => print ("  - " ++ archivo)) ;;
        carpeta <- (fun w => seleccionar_carpeta_clonacion (cwd w) w) ;;
        main_after_selection host url carpeta
      else
        print "No se pudieron obtener los detalles del repositorio. Proceso terminado."
  end.

(** The world of [main] when the destination is asked for: the probe has
    been shown. *)
Definition before_selection (w : World) (nombre : string) (archivos : list string)
  : World :=
  mkWorld (stdin w)
    (trace w
       ++ [Printed (PyStr.nl ++ "Nombre del repositorio: " ++ nombre)%string;
           Printed "Archivos del repositorio (vista previa de 10 archivos):"]
       ++ map (fun archivo => Printed ("  - " ++ archivo)%string) (firstn 10 archivos))
    (root w) (cwd w) (environ w).

(** The lines of the file preview, from what [os.walk] yields. *)
Definition preview_lines (dirs : list (list string * list string * list string))
  : list string :=
  flat_map
    (fun d =>
       match d with
       | (rel, _, files) =>
           if match rel with [] => true | _ => false end
              || existsb (String.eqb (last rel "")) ["src"; "lib"]
           then map (fun file => ("-  " ++ PyStr.join_slash (rel ++ [file]))%string) files
           else []
       end) dirs.

(** What [os.walk(folder)] yields in a world. *)
Definition walked (folder : string) (w : World)
  : list (list string * list string * list string) :=
  match Fs.stat (root w) (cwd w) folder with
  | Fs.Good n => Fs.walk_tree [] n
  | Fs.Bad _ => []
  end.

(** The summary line of [detect_dependencies] for one entry of the map. *)
Definition summary_line (item : string * string) : string :=
  (fst item ++ " (configurado en: " ++ snd item ++ ")")%string.

(** The world of [install_dependency] once its prompt has been answered. *)
Definition after_install_prompt (w : World) (dependency_name : string)
           (rest : list string) : World :=
  mkWorld rest
    (trace w
       ++ [Printed (PyStr.nl ++ "Se necesita instalar " ++ dependency_name ++ ".")%string;
           Asked ("¿Quieres instalar " ++ dependency_name
                    ++ " automáticamente? (s/n): ")%string])
    (root w) (cwd w) (environ w).

(** Whether [shutil.which(name)] finds the program in a world. *)
Definition on_path (host : Host) (w : World) (name : string) : bool :=
  match fst (shutil_which host name w) with
  | Return r => found r
  | Raise _ => false
  end.

(** The lines [detect_dependencies] prints while it looks, given which of
    [package.json], [requirements.txt], [Pipfile] and [venv] exist. *)
Definition detection_lines (pkg req pip venv : bool) : list string :=
  (if pkg then ["Archivo de configuración Node.js detectado (package.json)."] else [])
    ++ (if req then ["Archivo de configuración de Python detectado (requirements.txt)."]
        else if pip then ["Archivo de configuración de Python detectado (Pipfile)."]
             else [])
    ++ (if venv then ["Entorno virtual detectado (venv)."] else []).

(** The summary [detect_dependencies] ends with. *)
Definition summary_lines (d : PyDict.t) : list string :=
  match d with
  | [] => ["No se detectaron dependencias específicas en el proyecto."]
  | _ => (PyStr.nl ++ "--- Resumen de dependencias detectadas ---")%string
         :: map summary_line (PyDict.items d)
  end.

(** The commands of the two targeted installers. *)
Definition pip_install : command :=
  Argv ["venv/bin/pip"; "install"; "-r"; "requirements.txt"].

Definition npm_install : command := Argv ["npm"; "install"].

(** * Theorems *)

(** ** Tactics for running the monad *)

Ltac run_monad :=
  unfold bind, ret, raise, print, input, try_except, try_finally,
         os_path_exists, os_path_isdir, os_path_isfile, log, with_root;
  cbn [stdin trace root cwd environ fst snd negb andb orb].

(** Case analysis on the next existence test of the goal. *)
Ltac case_exists :=
  match goal with
  | |- context [Fs.exists_ (root ?w) (cwd ?w) ?p] =>
      destruct (Fs.exists_ (root w) (cwd w) p) eqn:?
  end.

(** ** Strings *)

Lemma lower_char_s (c : ascii) :
  PyStr.lower_char c = "s"%char -> c = "s"%char \/ c = "S"%char.
Proof.
  destruct c as [[] [] [] [] [] [] [] []]; vm_compute; intro H;
    first [ discriminate H | now left | now right ].
Qed.

Lemma lower_is_s (x : string) :
  PyStr.lower x = "s" <-> x = "s" \/ x = "S".
Proof.
  split.
  - destruct x as [|c [|c' x']]; cbn; try discriminate.
    intro H. injection H as H.
    destruct (lower_char_s c H) as [-> | ->]; auto.
  - intros [-> | ->]; reflexivity.
Qed.

(** ** C1: the change-directory prompt *)

(** C1, as the spec words it, fails: the answer is stripped and lowercased
    before it is compared with ['s'], so an uppercase [S] is a yes.  Here the
    user answers [S] and then gives [proyectos]: the function returns
    [proyectos], not the default directory. *)
Lemma C1_uppercase_S_counts_as_yes :
  "S" <> "s"
  /\ fst (seleccionar_carpeta_clonacion "/home/u" (Example.world ["S"; "proyectos"]))
     = Return (Some "proyectos")
  /\ Some "proyectos" <> Some "/home/u".
Proof.
  split; [discriminate | split; [vm_compute; reflexivity | discriminate]].
Qed.

Lemma seleccionar_carpeta_clonacion_declined
      (default_dir answer : string) (rest : list string) (w : World) :
  stdin w = answer :: rest ->
  yes_stripped answer = false ->
  seleccionar_carpeta_clonacion default_dir w
  = (Return (Some default_dir),
     mkWorld rest
             (trace w
                ++ [Printed (PyStr.nl ++ "Carpeta de clonación predeterminada: "
                               ++ default_dir)%string;
                    Asked "¿Desea cambiar la carpeta de clonación? (s/n): "])
             (root w) (cwd w) (environ w)).
Proof.
  unfold yes_stripped. intros Hin Hno.
  unfold seleccionar_carpeta_clonacion. run_monad. rewrite Hin, Hno.
  rewrite <- app_assoc. reflexivity.
Qed.

(** C1 (amended): the answer to the change-directory prompt is stripped of
    surrounding white space and lowercased; unless that leaves exactly [s]
    (the stripped answer is [s] or [S]), the function returns the default
    directory unchanged, having read one line and touched nothing else. *)
Theorem seleccionar_carpeta_clonacion_no
        (default_dir answer : string) (rest : list string) (w : World) :
  stdin w = answer :: rest ->
  PyStr.strip answer <> "s" ->
  PyStr.strip answer <> "S" ->
  seleccionar_carpeta_clonacion default_dir w
  = (Return (Some default_dir),
     mkWorld rest
             (trace w
                ++ [Printed (PyStr.nl ++ "Carpeta de clonación predeterminada: "
                               ++ default_dir)%string;
                    Asked "¿Desea cambiar la carpeta de clonación? (s/n): "])
             (root w) (cwd w) (environ w)).
Proof.
  intros Hin Hs HS.
  apply (seleccionar_carpeta_clonacion_declined _ answer); [exact Hin | ].
  unfold yes_stripped.
  destruct (String.eqb_spec (PyStr.lower (PyStr.strip answer)) "s") as [E | _];
    [ | reflexivity].
  apply lower_is_s in E. tauto.
Qed.

Lemma seleccionar_carpeta_clonacion_no_witness :
  seleccionar_carpeta_clonacion "/home/u" (Example.world ["yes"; "queda"])
  = (Return (Some "/home/u"),
     mkWorld ["queda"]
             [Printed (PyStr.nl ++ "Carpeta de clonación predeterminada: /home/u")%string;
              Asked "¿Desea cambiar la carpeta de clonación? (s/n): "]
             Example.disk "/home/u" []).
Proof.
  apply (seleccionar_carpeta_clonacion_no "/home/u" "yes" ["queda"]
           (Example.world ["yes"; "queda"])).
  - reflexivity.
  - vm_compute. discriminate.
  - vm_compute. discriminate.
Defined.

(** ** C4 and C9: the dependency map *)

(** C4: when [requirements.txt] exists in the project directory, the map
    returned by [detect_dependencies] has ["Python"] at ["requirements.txt"],
    never at ["Pipfile"], whether or not a [Pipfile] exists too. *)
Theorem detect_dependencies_prefers_requirements
        (project_folder : string) (w : World) :
  Fs.exists_ (root w) (cwd w) (os_path_join project_folder "requirements.txt")
  = true ->
  exists d w',
    detect_dependencies project_folder w = (Return d, w')
    /\ PyDict.get "Python" d = Some "requirements.txt"
    /\ PyDict.get "Python" d <> Some "Pipfile".
Proof.
  intro Hreq.
  unfold detect_dependencies. run_monad.
  destruct (Fs.exists_ (root w) (cwd w) (os_path_join project_folder "package.json"));
    run_monad; rewrite Hreq; run_monad;
    destruct (Fs.exists_ (root w) (cwd w) (os_path_join project_folder "venv"));
    cbn; do 2 eexists; (split; [reflexivity | split; [reflexivity | discriminate]]).
Qed.

Lemma detect_dependencies_prefers_requirements_witness :
  exists d w',
    detect_dependencies "/home/u/app"
      (Example.world_with
         [("app", Fs.Dir true [("Pipfile", Fs.File); ("requirements.txt", Fs.File)])]
         [])
    = (Return d, w')
    /\ PyDict.get "Python" d = Some "requirements.txt"
    /\ PyDict.get "Python" d <> Some "Pipfile".
Proof.
  apply detect_dependencies_prefers_requirements.
  vm_compute. reflexivity.
Defined.

(** C9: [detect_dependencies] always returns, and every entry of the map it
    returns is one of ["Node.js": "package.json"],
    ["Python": "requirements.txt"], ["Python": "Pipfile"] and
    ["Python virtual environment": "venv"]. *)
Theorem detect_dependencies_entries (project_folder : string) (w : World) :
  exists d w',
    detect_dependencies project_folder w = (Return d, w')
    /\ forall k v,
         In (k, v) (PyDict.items d) ->
         (k = "Node.js" /\ v = "package.json")
         \/ (k = "Python" /\ (v = "requirements.txt" \/ v = "Pipfile"))
         \/ (k = "Python virtual environment" /\ v = "venv").
Proof.
  unfold detect_dependencies.
  repeat (run_monad; case_exists);
    cbn; do 2 eexists; (split; [reflexivity | ]);
    intros k v Hin; cbn in Hin;
    repeat match goal with
           | H : _ \/ _ |- _ => destruct H as [H | H]
           | H : (_, _) = (_, _) |- _ => injection H as <- <-
           | H : False |- _ => destruct H
           end; intuition.
Qed.

(** ** C5: an URL that cannot be listed *)

Lemma commands_in_app (t1 t2 : list event) :
  commands_in (t1 ++ t2) = commands_in t1 ++ commands_in t2.
Proof. apply flat_map_app. Qed.

Lemma prompts_in_app (t1 t2 : list event) :
  prompts_in (t1 ++ t2) = prompts_in t1 ++ prompts_in t2.
Proof. apply flat_map_app. Qed.

Lemma verificar_url_repositorio_invalid (host : Host) (url : string) (w : World) :
  exits_nonzero (run_process host (ls_remote url) w) ->
  exists r,
    verificar_url_repositorio host url w
    = (Return false,
       mkWorld (stdin w)
               (trace w
                  ++ [Spawned (ls_remote url);
                      Printed "URL no válido o no se pudo conectar al repositorio."])
               r (cwd w) (environ w)).
Proof.
  unfold verificar_url_repositorio, subprocess_run, ls_remote. run_monad.
  destruct (run_process host (Argv ["git"; "ls-remote"; url]) w)
    as [rc err r | e]; cbn; [intro Hrc | intros []].
  destruct (Z.eqb_spec rc 0) as [-> | _]; [congruence | cbn].
  exists r. rewrite <- app_assoc. reflexivity.
Qed.

(** C5: when the remote-listing child process exits with a status other than
    zero, [verificar_url_repositorio] prints its report and returns [False],
    and [main] ends there: the only child process of the whole run is the
    remote listing, so neither the probe clone nor the real clone is
    started. *)
Theorem invalid_url_halts_before_any_clone
        (host : Host) (line : string) (rest : list string) (w : World) :
  stdin w = line :: rest ->
  (forall w', exits_nonzero (run_process host (ls_remote (PyStr.strip line)) w')) ->
  (forall w0, exists w1,
      verificar_url_repositorio host (PyStr.strip line) w0 = (Return false, w1)
      /\ trace w1
         = trace w0
             ++ [Spawned (ls_remote (PyStr.strip line));
                 Printed "URL no válido o no se pudo conectar al repositorio."])
  /\ exists w',
      main host w = (Return tt, w')
      /\ stdin w' = rest
      /\ trace w'
         = trace w
             ++ [Printed "Bienvenido al asistente de configuración de su entorno de desarrollo.";
                 Asked "Ingrese el URL del repositorio de Git: ";
                 Spawned (ls_remote (PyStr.strip line));
                 Printed "URL no válido o no se pudo conectar al repositorio.";
                 Printed "Proceso terminado. Verifique el URL e intente de nuevo."]
      /\ spawned w' = spawned w ++ [ls_remote (PyStr.strip line)].
Proof.
  intros Hin Hfail. split.
  - intro w0. destruct (verificar_url_repositorio_invalid host _ w0 (Hfail w0))
      as [r ->].
    eexists. split; reflexivity.
  - unfold main. run_monad. rewrite Hin.
    match goal with
    | |- context [verificar_url_repositorio host ?u ?w1] =>
        destruct (verificar_url_repositorio_invalid host u w1 (Hfail w1)) as [r ->]
    end.
    cbn. eexists. split; [reflexivity | cbn].
    split; [reflexivity | ].
    split.
    + repeat rewrite <- app_assoc. reflexivity.
    + unfold spawned. cbn. repeat rewrite commands_in_app. cbn.
      repeat rewrite app_nil_r. reflexivity.
Qed.

Lemma invalid_url_halts_before_any_clone_witness :
  exists w',
    main (Example.host (Example.exits 128)) (Example.world [" https://example.invalid/r.git "])
    = (Return tt, w')
    /\ spawned w' = [ls_remote "https://example.invalid/r.git"].
Proof.
  destruct (invalid_url_halts_before_any_clone
              (Example.host (Example.exits 128))
              " https://example.invalid/r.git " []
              (Example.world [" https://example.invalid/r.git "]))
    as [_ [w' [Hrun [_ [_ Hsp]]]]].
  - reflexivity.
  - intro w'. cbn. discriminate.
  - exists w'. split; [exact Hrun | exact Hsp].
Defined.

(** ** C6: the project-level installs *)

(** One round of the loop, for an ecosystem that was detected: the prompt is
    asked; on a yes the command is run by the shell and the round goes on
    whatever the exit status, on anything else the instruction is printed. *)
Lemma project_install_round
      (host : Host) (dependencies : PyDict.t) (entry : string * (string * string))
      (answer : string) (rest : list string) (w : World) :
  (forall line w', exited (run_process host (Shell line) w')) ->
  PyDict.mem (fst entry) dependencies = true ->
  stdin w = answer :: rest ->
  exists w',
    project_install host dependencies entry w = (Return tt, w')
    /\ stdin w' = rest
    /\ trace w' = trace w ++ project_events entry answer.
Proof.
  intros Hsh Hmem Hin. destruct entry as [dep [command manual]].
  cbn in Hmem. unfold project_install, project_events, yes_unstripped.
  rewrite Hmem. run_monad. rewrite Hin.
  destruct (String.eqb (PyStr.lower answer) "s").
  - unfold subprocess_run. run_monad.
    match goal with
    | |- context [run_process host ?c ?w1] =>
        specialize (Hsh command w1); destruct (run_process host c w1)
    end; [ | destruct Hsh].
    cbn. eexists. split; [reflexivity | cbn].
    split; [reflexivity | ]. repeat rewrite <- app_assoc. reflexivity.
  - eexists. split; [reflexivity | cbn].
    split; [reflexivity | ]. repeat rewrite <- app_assoc. reflexivity.
Qed.

Lemma project_install_skipped
      (host : Host) (dependencies : PyDict.t) (entry : string * (string * string))
      (w : World) :
  PyDict.mem (fst entry) dependencies = false ->
  project_install host dependencies entry w = (Return tt, w).
Proof.
  intro Hmem. destruct entry as [dep [command manual]]. cbn in Hmem.
  unfold project_install. rewrite Hmem. reflexivity.
Qed.

Lemma install_entries
      (host : Host) (dependencies : PyDict.t)
      (Hsh : forall line w', exited (run_process host (Shell line) w'))
      (entries : list (string * (string * string))) :
  forall (answers rest : list string) (w : World),
    stdin w = answers ++ rest ->
    length answers
    = length (filter (fun entry => PyDict.mem (fst entry) dependencies) entries) ->
    exists w',
      for_each entries (project_install host dependencies) w = (Return tt, w')
      /\ stdin w' = rest
      /\ trace w'
         = trace w
             ++ flat_map (fun ea => project_events (fst ea) (snd ea))
                  (combine
                     (filter (fun entry => PyDict.mem (fst entry) dependencies) entries)
                     answers).
Proof.
  induction entries as [|entry entries IH]; intros answers rest w Hin Hlen.
  - destruct answers; [ | discriminate Hlen]. cbn in *.
    exists w. rewrite app_nil_r. auto.
  - cbn [for_each filter] in *. unfold bind.
    destruct (PyDict.mem (fst entry) dependencies) eqn:Hmem.
    + destruct answers as [|answer answers]; [discriminate Hlen | ].
      destruct (project_install_round host dependencies entry answer
                  (answers ++ rest) w Hsh Hmem Hin) as [w1 [-> [Hin1 Htr1]]].
      injection Hlen as Hlen.
      destruct (IH answers rest w1 Hin1 Hlen) as [w2 [-> [Hin2 Htr2]]].
      exists w2. split; [reflexivity | split; [exact Hin2 | ]].
      rewrite Htr2, Htr1. cbn [combine flat_map fst snd].
      rewrite <- app_assoc. reflexivity.
    + rewrite (project_install_skipped host dependencies entry w Hmem).
      apply IH; assumption.
Qed.

(** C6: in the project-level install loop, every detected ecosystem gets its
    prompt.  On a yes ([s] after lowercasing) the command is run by the shell
    and its exit status is not looked at: whatever the status, the loop
    returns normally and goes on to the next ecosystem.  On any other answer
    the manual instruction is printed and nothing is run. *)
Theorem project_installs_are_best_effort
        (host : Host) (dependencies : PyDict.t)
        (answers rest : list string) (w : World) :
  (forall line w', exited (run_process host (Shell line) w')) ->
  stdin w = answers ++ rest ->
  length answers = length (detected_requirements dependencies) ->
  exists w',
    install_project_requirements host dependencies w = (Return tt, w')
    /\ stdin w' = rest
    /\ trace w'
       = trace w
           ++ flat_map (fun ea => project_events (fst ea) (snd ea))
                (combine (detected_requirements dependencies) answers).
Proof.
  intros Hsh Hin Hlen.
  exact (install_entries host dependencies Hsh project_requirements
           answers rest w Hin Hlen).
Qed.

Lemma project_installs_are_best_effort_witness :
  exists w',
    install_project_requirements (Example.host (Example.exits 1))
      [("Node.js", "package.json"); ("Python", "requirements.txt")]
      (Example.world ["s"; "n"; "queda"])
    = (Return tt, w')
    /\ stdin w' = ["queda"]
    /\ trace w'
       = [ Printed (PyStr.nl ++ "Para completar la instalación de Node.js:")%string;
           Asked "¿Quieres ejecutar 'npm install' automáticamente? (s/n): ";
           Spawned (Shell "npm install");
           Printed "Node.js se configuró correctamente.";
           Printed (PyStr.nl ++ "Para completar la instalación de Python:")%string;
           Asked "¿Quieres ejecutar 'pip install -r requirements.txt' automáticamente? (s/n): ";
           Printed "Instrucción: Ejecuta 'pip install -r requirements.txt' en el entorno virtual." ].
Proof.
  apply (project_installs_are_best_effort
           (Example.host (Example.exits 1))
           [("Node.js", "package.json"); ("Python", "requirements.txt")]
           ["s"; "n"] ["queda"] (Example.world ["s"; "n"; "queda"])).
  - intros line w'. exact I.
  - reflexivity.
  - reflexivity.
Defined.

(** ** C8: the virtual environment *)

Lemma setup_python_virtualenv_existing (host : Host) (w : World) :
  Fs.exists_ (root w) (cwd w) "venv" = true ->
  setup_python_virtualenv host w
  = (Return tt,
     mkWorld (stdin w)
             (trace w
                ++ [Printed "El entorno virtual ya existe.";
                    Printed ("Para activar el entorno virtual, ejecute: "
                               ++ (if String.eqb (os_name host) "nt"
                                   then "venv\Scripts\activate.bat"
                                   else "source venv/bin/activate"))%string])
             (root w) (cwd w) (environ w)).
Proof.
  intro Hvenv.
  unfold setup_python_virtualenv. run_monad. rewrite Hvenv. run_monad.
  rewrite <- app_assoc. reflexivity.
Qed.

(** C8: when [venv] exists, [setup_python_virtualenv] starts no child
    process and leaves the file system as it is; run twice in a row, it
    prints the same activation line both times. *)
Theorem setup_python_virtualenv_idempotent (host : Host) (w : World) :
  Fs.exists_ (root w) (cwd w) "venv" = true ->
  exists (line : string) (w1 w2 : World),
    setup_python_virtualenv host w = (Return tt, w1)
    /\ setup_python_virtualenv host w1 = (Return tt, w2)
    /\ trace w1 = trace w ++ [Printed "El entorno virtual ya existe."; Printed line]
    /\ trace w2 = trace w1 ++ [Printed "El entorno virtual ya existe."; Printed line]
    /\ spawned w2 = spawned w
    /\ root w2 = root w.
Proof.
  intro Hvenv.
  rewrite (setup_python_virtualenv_existing host w Hvenv).
  do 3 eexists.
  split; [reflexivity | ].
  split; [apply setup_python_virtualenv_existing; exact Hvenv | ]. cbn.
  split; [reflexivity | ].
  split; [reflexivity | ].
  split; [ | reflexivity].
  unfold spawned. cbn. repeat rewrite commands_in_app. cbn.
  repeat rewrite app_nil_r. reflexivity.
Qed.

Lemma setup_python_virtualenv_idempotent_witness :
  exists (line : string) (w1 w2 : World),
    let w := Example.world_with [("venv", Fs.Dir true [])] [] in
    setup_python_virtualenv (Example.host (Example.exits 1)) w = (Return tt, w1)
    /\ setup_python_virtualenv (Example.host (Example.exits 1)) w1 = (Return tt, w2)
    /\ trace w1 = trace w ++ [Printed "El entorno virtual ya existe."; Printed line]
    /\ trace w2 = trace w1 ++ [Printed "El entorno virtual ya existe."; Printed line]
    /\ spawned w2 = spawned w
    /\ root w2 = root w.
Proof.
  apply (setup_python_virtualenv_idempotent
           (Example.host (Example.exits 1))
           (Example.world_with [("venv", Fs.Dir true [])] [])).
  vm_compute. reflexivity.
Defined.

(** ** Directory creation touches the file system only *)


Lemma same_but_root_trans (w1 w2 w3 : World) :
  same_but_root w1 w2 -> same_but_root w2 w3 -> same_but_root w1 w3.
Proof.
  unfold same_but_root. intros [A1 [B1 [C1 D1]]] [A2 [B2 [C2 D2]]].
  repeat split; congruence.
Qed.

Lemma os_mkdir_same (p : string) (w : World) (r : result unit) (w' : World) :
  os_mkdir p w = (r, w') -> same_but_root w w'.
Proof.
  unfold os_mkdir.
  destruct (PyStr.has_nul p); [|destruct (Fs.mkdir (root w) (cwd w) p)];
    intro H; injection H as <- <-; repeat split.
Qed.

Lemma makedirs_leaf_same
      (name : string) (exist_ok : bool) (w : World) (r : result unit) (w' : World) :
  makedirs_leaf name exist_ok w = (r, w') -> same_but_root w w'.
Proof.
  unfold makedirs_leaf, try_except.
  destruct (os_mkdir name w) as [[[] | e] w1] eqn:Hmk; intro H.
  - injection H as <- <-. exact (os_mkdir_same _ _ _ _ Hmk).
  - apply os_mkdir_same in Hmk.
    destruct e; try (injection H as <- <-; exact Hmk).
    revert H. run_monad.
    destruct (negb exist_ok || negb (Fs.isdir (root w1) (cwd w1) name));
      intro H; injection H as <- <-; exact Hmk.
Qed.

Lemma makedirs_from_same (absolute exist_ok : bool) (rcs : list string) :
  forall (name : string) (w : World) (r : result unit) (w' : World),
    makedirs_from absolute rcs name exist_ok w = (r, w') -> same_but_root w w'.
Proof.
  induction rcs as [|tail rhead IH]; intros name w r w'.
  - apply makedirs_leaf_same.
  - cbn [makedirs_from]. run_monad.
    destruct (negb (PyStr.is_empty (unparse absolute (rev rhead)))
              && negb (Fs.exists_ (root w) (cwd w) (unparse absolute (rev rhead)))).
    + destruct (makedirs_from absolute rhead (unparse absolute (rev rhead)) exist_ok w)
        as [[[] | e] w1] eqn:Hrec; apply IH in Hrec.
      * destruct (String.eqb tail ".").
        -- intro H. injection H as <- <-. exact Hrec.
        -- intro H. apply makedirs_leaf_same in H.
           exact (same_but_root_trans _ _ _ Hrec H).
      * destruct e as [ | [] f | | ]; try (intro H; injection H as <- <-; exact Hrec).
        destruct (String.eqb tail ".").
        -- intro H. injection H as <- <-. exact Hrec.
        -- intro H. apply makedirs_leaf_same in H.
           exact (same_but_root_trans _ _ _ Hrec H).
    + apply makedirs_leaf_same.
Qed.

Lemma os_makedirs_same
      (name : string) (exist_ok : bool) (w : World) (r : result unit) (w' : World) :
  os_makedirs name exist_ok w = (r, w') -> same_but_root w w'.
Proof. apply makedirs_from_same. Qed.

(** ** C10: the prompts do not normalise alike *)

Lemma seleccionar_carpeta_clonacion_asks_path
      (default_dir answer : string) (rest : list string) (w : World) :
  stdin w = answer :: rest ->
  yes_stripped answer = true ->
  asked (snd (seleccionar_carpeta_clonacion default_dir w))
  = asked w ++ ["¿Desea cambiar la carpeta de clonación? (s/n): ";
                "Ingrese la ruta de la carpeta deseada: "].
Proof.
  unfold yes_stripped. intros Hin Hyes.
  unfold seleccionar_carpeta_clonacion. run_monad. rewrite Hin, Hyes.
  cbn [stdin trace root cwd environ].
  assert (Hasked : forall t : list event,
             prompts_in t = prompts_in (trace w) ++ [] ->
             prompts_in
               ((t ++ [Asked "¿Desea cambiar la carpeta de clonación? (s/n): "])
                  ++ [Asked "Ingrese la ruta de la carpeta deseada: "])
             = prompts_in (trace w)
                 ++ ["¿Desea cambiar la carpeta de clonación? (s/n): ";
                     "Ingrese la ruta de la carpeta deseada: "]).
  { intros t Ht. repeat rewrite prompts_in_app. rewrite Ht, app_nil_r.
    rewrite <- app_assoc. reflexivity. }
  assert (Hfirst : prompts_in
                     (trace w
                        ++ [Printed (PyStr.nl ++ "Carpeta de clonación predeterminada: "
                                       ++ default_dir)%string])
                   = prompts_in (trace w) ++ []).
  { rewrite prompts_in_app. reflexivity. }
  destruct rest as [|line rest].
  - cbn. unfold asked. cbn [trace]. apply Hasked, Hfirst.
  - cbn [stdin trace root cwd environ].
    match goal with
    | |- context [os_makedirs ?p true ?w1] =>
        destruct (os_makedirs p true w1) as [[[] | e] w2] eqn:Hmk;
        apply os_makedirs_same in Hmk;
        destruct Hmk as [_ [Htr _]]; cbn [trace] in Htr
    end.
    + cbn. unfold asked. cbn [trace]. rewrite Htr, prompts_in_app. cbn.
      rewrite app_nil_r. apply Hasked, Hfirst.
    + destruct e as [ | [] f | | ]; cbn; unfold asked; cbn [trace];
        rewrite Htr; try (rewrite prompts_in_app; cbn; rewrite app_nil_r);
        apply Hasked, Hfirst.
Qed.

Lemma install_dependency_declined
      (host : Host) (dependency_name : string) (install_command : list string)
      (manual_instructions answer : string) (rest : list string) (w : World) :
  stdin w = answer :: rest ->
  yes_unstripped answer = false ->
  install_dependency host dependency_name install_command manual_instructions w
  = (Return tt,
     mkWorld rest
       (trace w
          ++ [Printed (PyStr.nl ++ "Se necesita instalar " ++ dependency_name ++ ".")%string;
              Asked ("¿Quieres instalar " ++ dependency_name
                       ++ " automáticamente? (s/n): ")%string;
              Printed ("Instrucciones para instalar " ++ dependency_name
                         ++ " manualmente:")%string;
              Printed manual_instructions])
       (root w) (cwd w) (environ w)).
Proof.
  unfold yes_unstripped. intros Hin Hno.
  unfold install_dependency. run_monad. rewrite Hin, Hno.
  cbn. repeat rewrite <- app_assoc. reflexivity.
Qed.

Lemma project_install_declined
      (host : Host) (dependencies : PyDict.t) (dep command manual answer : string)
      (rest : list string) (w : World) :
  stdin w = answer :: rest ->
  yes_unstripped answer = false ->
  PyDict.mem dep dependencies = true ->
  project_install host dependencies (dep, (command, manual)) w
  = (Return tt,
     mkWorld rest
       (trace w
          ++ [Printed (PyStr.nl ++ "Para completar la instalación de " ++ dep ++ ":")%string;
              Asked ("¿Quieres ejecutar '" ++ command
                       ++ "' automáticamente? (s/n): ")%string;
              Printed ("Instrucción: " ++ manual)%string])
       (root w) (cwd w) (environ w)).
Proof.
  unfold yes_unstripped. intros Hin Hno Hmem.
  unfold project_install. rewrite Hmem. run_monad. rewrite Hin, Hno.
  cbn. repeat rewrite <- app_assoc. reflexivity.
Qed.

(** C10: the answer [s] followed by a space is a yes for the destination
    prompt, which strips before it lowercases, and a no for the two installer
    prompts, which only lowercase.  On that answer
    [seleccionar_carpeta_clonacion] goes on to ask for the path, while
    [install_dependency] prints the manual instructions and the project-level
    round prints its instruction, neither starting a child process. *)
Theorem yes_no_prompts_normalise_differently
        (host : Host) (default_dir dependency_name : string)
        (install_command : list string) (manual_instructions : string)
        (dependencies : PyDict.t) (dep command manual : string)
        (rest : list string) (w : World) :
  stdin w = "s " :: rest ->
  PyDict.mem dep dependencies = true ->
  (yes_stripped "s " = true /\ yes_unstripped "s " = false)
  /\ asked (snd (seleccionar_carpeta_clonacion default_dir w))
     = asked w ++ ["¿Desea cambiar la carpeta de clonación? (s/n): ";
                   "Ingrese la ruta de la carpeta deseada: "]
  /\ install_dependency host dependency_name install_command manual_instructions w
     = (Return tt,
        mkWorld rest
          (trace w
             ++ [Printed (PyStr.nl ++ "Se necesita instalar " ++ dependency_name ++ ".")%string;
                 Asked ("¿Quieres instalar " ++ dependency_name
                          ++ " automáticamente? (s/n): ")%string;
                 Printed ("Instrucciones para instalar " ++ dependency_name
                            ++ " manualmente:")%string;
                 Printed manual_instructions])
          (root w) (cwd w) (environ w))
  /\ project_install host dependencies (dep, (command, manual)) w
     = (Return tt,
        mkWorld rest
          (trace w
             ++ [Printed (PyStr.nl ++ "Para completar la instalación de " ++ dep ++ ":")%string;
                 Asked ("¿Quieres ejecutar '" ++ command
                          ++ "' automáticamente? (s/n): ")%string;
                 Printed ("Instrucción: " ++ manual)%string])
          (root w) (cwd w) (environ w)).
Proof.
  intros Hin Hmem.
  split; [split; reflexivity | ].
  split; [apply (seleccionar_carpeta_clonacion_asks_path _ "s " rest); auto | ].
  split.
  - apply (install_dependency_declined _ _ _ _ "s "); auto.
  - apply (project_install_declined _ _ _ _ _ "s "); auto.
Qed.

Lemma yes_no_prompts_normalise_differently_witness :
  let w := Example.world ["s "; "proyectos"] in
  asked (snd (seleccionar_carpeta_clonacion "/home/u" w))
  = ["¿Desea cambiar la carpeta de clonación? (s/n): ";
     "Ingrese la ruta de la carpeta deseada: "]
  /\ spawned (snd (install_dependency (Example.host (Example.exits 0)) "pip"
                     ["python3"; "-m"; "ensurepip"; "--upgrade"] "Instala pip." w))
     = []
  /\ spawned (snd (project_install (Example.host (Example.exits 0))
                     [("Node.js", "package.json")]
                     ("Node.js", ("npm install", "Ejecuta 'npm install'.")) w))
     = [].
Proof.
  destruct (yes_no_prompts_normalise_differently
              (Example.host (Example.exits 0)) "/home/u" "pip"
              ["python3"; "-m"; "ensurepip"; "--upgrade"] "Instala pip."
              [("Node.js", "package.json")] "Node.js" "npm install"
              "Ejecuta 'npm install'." ["proyectos"]
              (Example.world ["s "; "proyectos"]))
    as [_ [Hsel [Hdep Hproj]]].
  - reflexivity.
  - reflexivity.
  - cbn zeta. split; [exact Hsel | ].
    rewrite Hdep, Hproj. split; reflexivity.
Defined.

(** ** Paths as strings and as components *)

Lemma split_slash_nonempty (s : string) : PyStr.split_slash s <> [].
Proof.
  destruct s as [|c s]; cbn; [discriminate | ].
  destruct (Ascii.eqb c "/"); [discriminate | ].
  destruct (PyStr.split_slash s); discriminate.
Qed.

Lemma split_slash_no_slash (s : string) :
  Forall (fun c => no_slash c = true) (PyStr.split_slash s).
Proof.
  induction s as [|c s IH]; cbn.
  - repeat constructor.
  - destruct (Ascii.eqb c "/") eqn:Hc.
    + constructor; [reflexivity | exact IH].
    + destruct (PyStr.split_slash s) as [|x xs]; [repeat constructor; cbn; now rewrite Hc | ].
      inversion IH; subst. constructor; [cbn; rewrite Hc; assumption | assumption].
Qed.

Lemma components_are_components (s : string) :
  Forall (fun c => component c = true) (Fs.components s).
Proof.
  unfold Fs.components.
  pose proof (split_slash_no_slash s) as H.
  induction H as [|x xs Hx _ IH]; cbn; [constructor | ].
  destruct (PyStr.is_empty x) eqn:He; cbn; [exact IH | ].
  constructor; [ | exact IH]. unfold component. now rewrite He, Hx.
Qed.

Lemma split_slash_of_component (x : string) :
  no_slash x = true -> PyStr.split_slash x = [x].
Proof.
  induction x as [|c x IH]; cbn; [reflexivity | ].
  destruct (Ascii.eqb c "/"); cbn; [discriminate | ].
  intro H. now rewrite (IH H).
Qed.

Lemma split_slash_app (x r : string) :
  no_slash x = true ->
  PyStr.split_slash (x ++ String "/" r) = x :: PyStr.split_slash r.
Proof.
  induction x as [|c x IH]; cbn; [reflexivity | ].
  destruct (Ascii.eqb c "/"); cbn; [discriminate | ].
  intro H. now rewrite (IH H).
Qed.

Lemma components_join (cs : list string) :
  Forall (fun c => component c = true) cs ->
  Fs.components (PyStr.join_slash cs) = cs.
Proof.
  unfold Fs.components, PyStr.join_slash.
  induction 1 as [|c cs Hc Hcs IH]; [reflexivity | ].
  unfold component in Hc. apply andb_true_iff in Hc. destruct Hc as [Hne Hns].
  destruct cs as [|c' cs'].
  - cbn [String.concat]. rewrite (split_slash_of_component c Hns). cbn.
    now rewrite Hne.
  - cbn [String.concat]. cbn [String.concat] in IH.
    change ("/" ++ ?s)%string with (String "/" s).
    rewrite (split_slash_app c _ Hns). cbn [filter]. rewrite Hne.
    now rewrite IH.
Qed.

Lemma components_unparse (absolute : bool) (cs : list string) :
  Forall (fun c => component c = true) cs ->
  Fs.components (unparse absolute cs) = cs.
Proof.
  intro H. unfold unparse. destruct absolute; cbn [append].
  - unfold Fs.components. cbn. exact (components_join cs H).
  - exact (components_join cs H).
Qed.

(** NUL bytes, in a path and in its components. *)
Lemma has_nul_app (a b : string) :
  PyStr.has_nul (a ++ b) = PyStr.has_nul a || PyStr.has_nul b.
Proof.
  induction a as [|c a IH]; cbn; [reflexivity | ].
  now rewrite IH, orb_assoc.
Qed.

Lemma has_nul_split (s : string) :
  existsb PyStr.has_nul (PyStr.split_slash s) = PyStr.has_nul s.
Proof.
  induction s as [|c s IH]; cbn; [reflexivity | ].
  destruct (Ascii.eqb c "/") eqn:Hc.
  - apply Ascii.eqb_eq in Hc. subst c. cbn. exact IH.
  - pose proof (split_slash_nonempty s) as Hne.
    destruct (PyStr.split_slash s) as [|x xs]; [congruence | ].
    cbn in *. now rewrite <- IH, orb_assoc.
Qed.

Lemma has_nul_components (s : string) :
  existsb PyStr.has_nul (Fs.components s) = PyStr.has_nul s.
Proof.
  rewrite <- has_nul_split. unfold Fs.components.
  induction (PyStr.split_slash s) as [|x xs IH]; cbn; [reflexivity | ].
  destruct x as [|c x]; cbn; [exact IH | now rewrite IH].
Qed.

Lemma has_nul_join (cs : list string) :
  PyStr.has_nul (PyStr.join_slash cs) = existsb PyStr.has_nul cs.
Proof.
  unfold PyStr.join_slash.
  induction cs as [|c cs IH]; [reflexivity | ].
  destruct cs as [|c' cs'].
  - cbn. now rewrite orb_false_r.
  - cbn [String.concat existsb]. cbn [String.concat existsb] in IH.
    rewrite has_nul_app, has_nul_app, IH. reflexivity.
Qed.

Lemma has_nul_unparse (absolute : bool) (cs : list string) :
  PyStr.has_nul (unparse absolute cs) = existsb PyStr.has_nul cs.
Proof.
  unfold unparse. rewrite has_nul_app, has_nul_join. now destruct absolute.
Qed.









Lemma normalise_app (cur a b : list string) :
  Fs.normalise cur (a ++ b) = Fs.normalise (Fs.normalise cur a) b.
Proof.
  revert cur. induction a as [|c a IH]; intro cur; cbn; [reflexivity | ].
  destruct (String.eqb c "."); [apply IH | ].
  destruct (String.eqb c ".."); apply IH.
Qed.

Lemma plain_name_inv (c : string) :
  plain_name c = true ->
  component c = true /\ String.eqb c "." = false /\ String.eqb c ".." = false.
Proof.
  unfold plain_name. intro H.
  apply andb_true_iff in H. destruct H as [H H2].
  apply andb_true_iff in H. destruct H as [H0 H1].
  apply negb_true_iff in H1, H2. auto.
Qed.

Lemma normalise_plain (cs : list string) :
  Forall (fun c => plain_name c = true) cs ->
  forall cur, Fs.normalise cur cs = cur ++ cs.
Proof.
  induction 1 as [|c cs Hc _ IH]; intro cur; cbn; [now rewrite app_nil_r | ].
  destruct (plain_name_inv c Hc) as [_ [-> ->]].
  rewrite IH, <- app_assoc. reflexivity.
Qed.

Lemma Forall_removelast (A : Type) (P : A -> Prop) (l : list A) :
  Forall P l -> Forall P (removelast l).
Proof.
  induction 1 as [|x l Hx Hl IH]; cbn; [constructor | ].
  destruct l; [constructor | constructor; assumption].
Qed.

Lemma normalise_is_plain (cs : list string) :
  Forall (fun c => component c = true) cs ->
  forall cur,
    Forall (fun c => plain_name c = true) cur ->
    Forall (fun c => plain_name c = true) (Fs.normalise cur cs).
Proof.
  induction 1 as [|c cs Hc _ IH]; intros cur Hcur; cbn; [assumption | ].
  destruct (String.eqb c ".") eqn:E1; [now apply IH | ].
  destruct (String.eqb c "..") eqn:E2.
  - apply IH. now apply Forall_removelast.
  - apply IH. apply Forall_app. split; [assumption | ].
    constructor; [ | constructor]. unfold plain_name. now rewrite Hc, E1, E2.
Qed.

Lemma walk_is_lexical (root : Fs.node) (cs : list string) :
  forall cur q, Fs.walk root cur cs = Fs.Good q -> q = Fs.normalise cur cs.
Proof.
  induction cs as [|c cs IH]; intros cur q; cbn.
  - intro H. now injection H as <-.
  - destruct (Fs.find root cur) as [[ | wr es] | ]; try discriminate.
    destruct (String.eqb c "."); [apply IH | ].
    destruct (String.eqb c ".."); apply IH.
Qed.

Lemma start_is_plain (cwd p : string) :
  Forall (fun c => plain_name c = true) (Fs.start cwd p).
Proof.
  unfold Fs.start. destruct (PyStr.starts_with_slash p); [constructor | ].
  apply normalise_is_plain; [apply components_are_components | constructor].
Qed.

(** ** Removal *)

Lemma assoc_filter_out (c : string) (es : list (string * Fs.node)) :
  Fs.assoc c (filter (fun e => negb (String.eqb (fst e) c)) es) = None.
Proof.
  induction es as [|[k n] es IH]; cbn; [reflexivity | ].
  destruct (String.eqb k c) eqn:E; cbn; [exact IH | ].
  now rewrite E.
Qed.

Lemma assoc_alter (f : Fs.node -> Fs.node) (c : string) (es : list (string * Fs.node)) :
  Fs.assoc c (Fs.alter f c es) = option_map f (Fs.assoc c es).
Proof.
  induction es as [|[k n] es IH]; cbn; [reflexivity | ].
  destruct (String.eqb k c) eqn:E; cbn; now rewrite E.
Qed.

Lemma find_remove (q : list string) :
  q <> [] -> forall n, Fs.find (Fs.remove n q) q = None.
Proof.
  induction q as [|c q IH]; [congruence | intros _ n].
  destruct q as [|c' q'].
  - destruct n as [|wr es]; cbn; [reflexivity | ].
    destruct (Fs.fits c); [ | reflexivity].
    now rewrite assoc_filter_out.
  - destruct n as [|wr es]; [reflexivity | ].
    cbn [Fs.remove Fs.find]. destruct (Fs.fits c); [ | reflexivity].
    rewrite assoc_alter.
    destruct (Fs.assoc c es) as [n'|]; cbn [option_map]; [ | reflexivity].
    apply IH. discriminate.
Qed.

Lemma rmtree_removes (root : Fs.node) (cwd p : string) :
  Fs.normalise (Fs.start cwd p) (Fs.components p) <> [] ->
  Fs.exists_ (Fs.rmtree root cwd p) cwd p = false.
Proof.
  intro Hq. unfold Fs.exists_, Fs.stat, Fs.rmtree.
  destruct (Fs.resolve (Fs.rmtree root cwd p) cwd p) as [q'|e] eqn:Hafter;
    [ | unfold Fs.rmtree in Hafter; rewrite Hafter; reflexivity].
  unfold Fs.rmtree in Hafter. rewrite Hafter.
  assert (Hq' : q' = Fs.normalise (Fs.start cwd p) (Fs.components p)).
  { unfold Fs.resolve in Hafter. destruct (PyStr.is_empty p); [discriminate | ].
    exact (walk_is_lexical _ _ _ _ Hafter). }
  destruct (Fs.resolve root cwd p) as [q|e] eqn:Hbefore.
  - assert (q = q').
    { unfold Fs.resolve in Hbefore. destruct (PyStr.is_empty p); [discriminate | ].
      rewrite (walk_is_lexical _ _ _ _ Hbefore). now rewrite Hq'. }
    subst q. rewrite find_remove; [reflexivity | now rewrite Hq'].
  - rewrite Hbefore in Hafter. discriminate.
Qed.

(** ** Creation of directories *)

Lemma assoc_app (c : string) (es es' : list (string * Fs.node)) :
  Fs.assoc c (es ++ es')
  = match Fs.assoc c es with Some n => Some n | None => Fs.assoc c es' end.
Proof.
  induction es as [|[k n] es IH]; cbn; [reflexivity | ].
  destruct (String.eqb k c); [reflexivity | exact IH].
Qed.

Lemma assoc_alter_other (f : Fs.node -> Fs.node) (c c' : string)
      (es : list (string * Fs.node)) :
  String.eqb c c' = false -> Fs.assoc c' (Fs.alter f c es) = Fs.assoc c' es.
Proof.
  intro Hne. induction es as [|[k n] es IH]; cbn; [reflexivity | ].
  destruct (String.eqb k c) eqn:E; cbn.
  - apply String.eqb_eq in E. subst k. now rewrite Hne.
  - destruct (String.eqb k c'); [reflexivity | exact IH].
Qed.

Lemma find_app (p l : list string) :
  forall n, Fs.find n (p ++ l)
            = match Fs.find n p with Some n' => Fs.find n' l | None => None end.
Proof.
  induction p as [|c p IH]; intro n; cbn; [reflexivity | ].
  destruct n as [|wr es]; [reflexivity | ].
  destruct (Fs.fits c); [ | reflexivity].
  destruct (Fs.assoc c es); [apply IH | reflexivity].
Qed.

Lemma find_snoc (n : Fs.node) (p : list string) (c : string) :
  Fs.find n (p ++ [c])
  = match Fs.find n p with
    | Some (Fs.Dir _ es) => if Fs.fits c then Fs.assoc c es else None
    | _ => None
    end.
Proof.
  rewrite find_app. destruct (Fs.find n p) as [[|wr es]|]; cbn; try reflexivity.
  destruct (Fs.fits c); [ | reflexivity].
  destruct (Fs.assoc c es); reflexivity.
Qed.

(** A path that leads somewhere goes through directories. *)
Lemma find_prefix_is_dir (n : Fs.node) (p l : list string) (n' : Fs.node) :
  l <> [] -> Fs.find n (p ++ l) = Some n' ->
  exists wr es, Fs.find n p = Some (Fs.Dir wr es).
Proof.
  intros Hl. rewrite find_app.
  destruct (Fs.find n p) as [[|wr es]|]; try discriminate.
  - destruct l; [congruence | discriminate].
  - eauto.
Qed.

Lemma add_dir_cons (n : Fs.node) (c c' : string) (p : list string) :
  Fs.add_dir n (c :: c' :: p)
  = match n with
    | Fs.File => n
    | Fs.Dir wr es => Fs.Dir wr (Fs.alter (fun n' => Fs.add_dir n' (c' :: p)) c es)
    end.
Proof. reflexivity. Qed.

(** Adding a directory keeps every directory a directory, with its
    permission. *)
Lemma add_dir_keeps_dirs (p : list string) :
  forall (n : Fs.node) (p' : list string) (wr : bool) (es : list (string * Fs.node)),
    Fs.find n p' = Some (Fs.Dir wr es) ->
    exists es', Fs.find (Fs.add_dir n p) p' = Some (Fs.Dir wr es').
Proof.
  induction p as [|c p IH]; intros n p' wr es Hfind; [cbn; eauto | ].
  destruct n as [|wr0 es0].
  - destruct p; cbn; eauto.
  - destruct p as [|c' p].
    + cbn [Fs.add_dir]. destruct p' as [|c1 p1].
      * cbn in *. injection Hfind as <- <-. eauto.
      * cbn in *. destruct (Fs.fits c1); [ | discriminate].
        rewrite assoc_app.
        destruct (Fs.assoc c1 es0); [eauto | discriminate].
    + rewrite add_dir_cons. destruct p' as [|c1 p1].
      * cbn in *. injection Hfind as <- <-. eauto.
      * cbn [Fs.find] in *. destruct (Fs.fits c1); [ | discriminate].
        destruct (String.eqb c c1) eqn:E.
        -- apply String.eqb_eq in E. subst c1. rewrite assoc_alter.
           destruct (Fs.assoc c es0) as [n0|]; [ | discriminate]. cbn.
           eapply IH. exact Hfind.
        -- rewrite (assoc_alter_other _ _ _ _ E).
           destruct (Fs.assoc c1 es0); [eauto | discriminate].
Qed.

(** The directory added is there, and empty. *)
Lemma find_add_dir (p : list string) (c : string) :
  forall (n : Fs.node) (wr : bool) (es : list (string * Fs.node)),
    Fs.find n p = Some (Fs.Dir wr es) ->
    Fs.assoc c es = None ->
    Fs.fits c = true ->
    Fs.find (Fs.add_dir n (p ++ [c])) (p ++ [c]) = Some (Fs.Dir true []).
Proof.
  induction p as [|c0 p IH]; intros n wr es Hfind Hnew Hfits.
  - cbn in Hfind. injection Hfind as ->. cbn. rewrite Hfits, assoc_app, Hnew. cbn.
    now rewrite String.eqb_refl.
  - destruct n as [|wr0 es0]; [discriminate | ].
    cbn [Fs.find] in Hfind.
    destruct (Fs.fits c0) eqn:F0; [ | discriminate].
    destruct (Fs.assoc c0 es0) as [n0|] eqn:E0; [ | discriminate].
    assert (Hshape : exists c' p', p ++ [c] = c' :: p').
    { destruct p; cbn; eauto. }
    destruct Hshape as [c' [p' Hshape]].
    cbn [app]. rewrite Hshape, add_dir_cons, <- Hshape.
    cbn [Fs.find]. rewrite F0, assoc_alter, E0. cbn.
    eapply IH; eassumption.
Qed.


Lemma walk_app (r : Fs.node) (a b : list string) :
  forall cur,
    Fs.walk r cur (a ++ b)
    = match Fs.walk r cur a with
      | Fs.Good q => Fs.walk r q b
      | Fs.Bad e => Fs.Bad e
      end.
Proof.
  induction a as [|c a IH]; intro cur; cbn; [reflexivity | ].
  destruct (Fs.find r cur) as [[|wr es]|]; try reflexivity.
  destruct (String.eqb c "."); [apply IH | ].
  destruct (String.eqb c ".."); apply IH.
Qed.

(** Names are walked one directory down each. *)
Lemma walk_names (r : Fs.node) (names : list string) :
  Forall (fun c => plain_name c = true) names ->
  forall cur wr es,
    Fs.find r (cur ++ removelast names) = Some (Fs.Dir wr es) ->
    Fs.walk r cur names = Fs.Good (cur ++ names).
Proof.
  induction 1 as [|n names Hn Hnames IH]; intros cur wr es Hdir.
  - cbn. now rewrite app_nil_r.
  - cbn [Fs.walk].
    destruct (plain_name_inv n Hn) as [_ [-> ->]].
    destruct names as [|n' names'].
    + cbn in Hdir. rewrite app_nil_r in Hdir. rewrite Hdir. reflexivity.
    + assert (Hcur : exists wr' es', Fs.find r cur = Some (Fs.Dir wr' es')).
      { eapply (find_prefix_is_dir r cur (removelast (n :: n' :: names')));
          [cbn; discriminate | exact Hdir]. }
      destruct Hcur as [wr' [es' ->]].
      replace (cur ++ n :: n' :: names') with ((cur ++ [n]) ++ n' :: names')
        by (rewrite <- app_assoc; reflexivity).
      eapply IH. rewrite <- app_assoc. exact Hdir.
Qed.

(** What a path leads to has been looked up name by name: no name of the
    path holds a NUL byte. *)
Lemma walk_from_found (r : Fs.node) (cs : list string) :
  forall cur q n,
    Fs.walk r cur cs = Fs.Good q -> Fs.find r q = Some n ->
    exists n', Fs.find r cur = Some n'.
Proof.
  destruct cs as [|c cs]; intros cur q n; cbn [Fs.walk].
  - intro H. injection H as <-. eauto.
  - destruct (Fs.find r cur) as [n'|]; [eauto | discriminate].
Qed.

Lemma walk_no_nul (r : Fs.node) (cs : list string) :
  forall cur q n,
    Fs.walk r cur cs = Fs.Good q -> Fs.find r q = Some n ->
    existsb PyStr.has_nul cs = false.
Proof.
  induction cs as [|c cs IH]; intros cur q n Hwalk Hfind; [reflexivity | ].
  cbn [Fs.walk] in Hwalk. cbn [existsb].
  destruct (Fs.find r cur) as [[|wr es]|] eqn:Hcur; try discriminate.
  destruct (String.eqb c ".") eqn:E1.
  - apply String.eqb_eq in E1. subst c. cbn. exact (IH _ _ _ Hwalk Hfind).
  - destruct (String.eqb c "..") eqn:E2.
    + apply String.eqb_eq in E2. subst c. cbn. exact (IH _ _ _ Hwalk Hfind).
    + rewrite (IH _ _ _ Hwalk Hfind), orb_false_r.
      destruct (walk_from_found _ _ _ _ _ Hwalk Hfind) as [n' Hn'].
      rewrite find_snoc, Hcur in Hn'. unfold Fs.fits in Hn'.
      destruct (PyStr.has_nul c); [ | reflexivity].
      rewrite andb_false_r in Hn'. discriminate.
Qed.

Lemma stat_no_nul (r : Fs.node) (cwd p : string) (n : Fs.node) :
  Fs.stat r cwd p = Fs.Good n -> PyStr.has_nul p = false.
Proof.
  unfold Fs.stat, Fs.resolve. destruct (PyStr.is_empty p); [discriminate | ].
  destruct (Fs.walk r (Fs.start cwd p) (Fs.components p)) as [q|e] eqn:Hwalk;
    [ | discriminate].
  destruct (Fs.find r q) as [n'|] eqn:Hfind; [ | discriminate].
  intros _. rewrite <- has_nul_components.
  exact (walk_no_nul _ _ _ _ _ Hwalk Hfind).
Qed.

Lemma isdir_no_nul (r : Fs.node) (cwd p : string) :
  Fs.isdir r cwd p = true -> PyStr.has_nul p = false.
Proof.
  unfold Fs.isdir. destruct (Fs.stat r cwd p) as [n|e] eqn:H; [ | discriminate].
  intros _. exact (stat_no_nul _ _ _ _ H).
Qed.

Lemma existsb_prefix (A : Type) (f : A -> bool) (a b : list A) :
  existsb f (a ++ b) = false -> existsb f a = false.
Proof. rewrite existsb_app. intro H. now apply orb_false_iff in H. Qed.




Lemma unparse_starts_with_slash (absolute : bool) (cs : list string) :
  Forall (fun c => component c = true) cs ->
  PyStr.starts_with_slash (unparse absolute cs) = absolute.
Proof.
  intro H. unfold unparse. destruct absolute; [reflexivity | ].
  cbn [append]. destruct H as [|c cs Hc _]; [reflexivity | ].
  unfold component in Hc. apply andb_true_iff in Hc. destruct Hc as [Hne Hns].
  unfold PyStr.join_slash. destruct c as [|a c]; [discriminate | ].
  cbn in Hns. apply andb_true_iff in Hns. destruct Hns as [Ha _].
  apply negb_true_iff in Ha.
  destruct cs; cbn; exact Ha.
Qed.

Lemma start_of (cwd p p' : string) :
  PyStr.starts_with_slash p = PyStr.starts_with_slash p' ->
  Fs.start cwd p = Fs.start cwd p'.
Proof. unfold Fs.start. now intros ->. Qed.



(** ** C7: the scratch directory of the probe *)

Lemma plain_names_are_components (q : list string) :
  Forall (fun c => plain_name c = true) q ->
  Forall (fun c => component c = true) q.
Proof.
  intro H. eapply Forall_impl; [ | exact H].
  intros c Hc. now destruct (plain_name_inv c Hc).
Qed.

(** A directory made by [os.mkdir] is at the normalised path of its name,
    which is not the root, and can be reached from the root. *)
Lemma mkdir_makes_dir (r0 : Fs.node) (cwd p : string) (r : Fs.node) :
  Fs.mkdir r0 cwd p = Fs.Good r ->
  let q := Fs.normalise (Fs.start cwd p) (Fs.components p) in
  q <> []
  /\ Fs.find r q = Some (Fs.Dir true [])
  /\ Fs.walk r [] q = Fs.Good q.
Proof.
  unfold Fs.mkdir, Fs.resolve.
  destruct (PyStr.is_empty p); [discriminate | ].
  destruct (Fs.walk r0 (Fs.start cwd p) (Fs.components p)) as [q|e] eqn:Hw;
    [ | discriminate].
  rewrite <- (walk_is_lexical _ _ _ _ Hw).
  assert (Hplain : Forall (fun c => plain_name c = true) q).
  { rewrite (walk_is_lexical _ _ _ _ Hw).
    apply normalise_is_plain;
      [apply components_are_components | apply start_is_plain]. }
  destruct (Fs.find r0 q) eqn:Hq; [discriminate | ].
  destruct (Fs.fits (last q "")) eqn:Hfits; cbn [negb orb]; [ | discriminate].
  destruct (Fs.too_long p); [discriminate | ].
  destruct (Fs.find r0 (removelast q)) as [[|[] es]|] eqn:Hparent;
    try discriminate.
  intro H. injection H as <-. cbn zeta.
  assert (Hne : q <> []) by (intros ->; discriminate).
  rewrite (app_removelast_last "" Hne) in Hq.
  rewrite find_snoc, Hparent, Hfits in Hq.
  split; [exact Hne | ].
  assert (Hfind : Fs.find (Fs.add_dir r0 q) q = Some (Fs.Dir true [])).
  { rewrite (app_removelast_last "" Hne).
    eapply find_add_dir; eassumption. }
  split; [exact Hfind | ].
  destruct (add_dir_keeps_dirs q r0 _ _ _ Hparent) as [es' Hparent'].
  exact (walk_names _ q Hplain [] _ _ Hparent').
Qed.

(** The name [mkdtemp] returns is absolute and names the directory made. *)
Lemma abspath_target (p : string) (w : World) (t : string) (w' : World) :
  let q := Fs.normalise (Fs.start (cwd w) p) (Fs.components p) in
  q <> [] ->
  Fs.find (root w) q = Some (Fs.Dir true []) ->
  Fs.walk (root w) [] q = Fs.Good q ->
  os_path_abspath p w = (Return t, w') ->
  w' = w
  /\ PyStr.starts_with_slash t = true
  /\ Fs.normalise [] (Fs.components t) <> []
  /\ Fs.isdir (root w) (cwd w) t = true.
Proof.
  intros q Hq Hfind Hwalk H. unfold os_path_abspath in H. injection H as <- <-.
  fold q.
  assert (Hplain : Forall (fun c => plain_name c = true) q).
  { apply normalise_is_plain;
      [apply components_are_components | apply start_is_plain]. }
  assert (Hcs : forall lead, lead = "/" \/ lead = "//" ->
                  Fs.components (lead ++ PyStr.join_slash q) = q).
  { intros lead [-> | ->]; unfold Fs.components; cbn;
      apply components_join, plain_names_are_components, Hplain. }
  assert (Hdir : forall lead, lead = "/" \/ lead = "//" ->
                   Fs.isdir (root w) (cwd w) (lead ++ PyStr.join_slash q) = true).
  { intros lead Hlead. unfold Fs.isdir, Fs.stat, Fs.resolve.
    rewrite (Hcs lead Hlead).
    destruct Hlead as [-> | ->]; cbn [append PyStr.is_empty Fs.start
                                       PyStr.starts_with_slash Ascii.eqb Bool.eqb];
      now rewrite Hwalk, Hfind. }
  split; [reflexivity | ].
  destruct (Nat.eqb _ 2).
  - split; [reflexivity | ]. rewrite Hcs by auto.
    split; [now rewrite normalise_plain | auto].
  - split; [reflexivity | ]. rewrite Hcs by auto.
    split; [now rewrite normalise_plain | auto].
Qed.

Lemma mkdtemp_try_target (host : Host) (names : list string) :
  forall (w : World) (t : string) (w0 : World),
    mkdtemp_try host names w = (Return t, w0) ->
    PyStr.starts_with_slash t = true
    /\ Fs.normalise [] (Fs.components t) <> []
    /\ Fs.isdir (root w0) (cwd w0) t = true.
Proof.
  induction names as [|n names IH]; intros w t w0; cbn [mkdtemp_try].
  - discriminate.
  - unfold bind, try_except, ret, os_mkdir.
    destruct (PyStr.has_nul (os_path_join (tempdir host) ("tmp" ++ n)));
      [discriminate | ].
    destruct (Fs.mkdir (root w) (cwd w) (os_path_join (tempdir host) ("tmp" ++ n)))
      as [r|e] eqn:Hmk.
    + intro H. apply mkdir_makes_dir in Hmk. destruct Hmk as [Hq [Hfind Hwalk]].
      eapply abspath_target in H; try eassumption.
      destruct H as [-> H]. exact H.
    + destruct e; try discriminate. apply IH.
Qed.

(** C7: the temporary directory that [obtener_nombre_y_archivos_repositorio]
    makes is there when the clone starts and does not exist in the world the
    function leaves, whatever the clone and the enumeration do and whether
    the function returns or raises. *)
Theorem scratch_directory_is_released
        (host : Host) (url temp_dir : string) (w w0 : World)
        (r : result (string * list string)) (w' : World) :
  mkdtemp host w = (Return temp_dir, w0) ->
  obtener_nombre_y_archivos_repositorio host url w = (r, w') ->
  Fs.isdir (root w0) (cwd w0) temp_dir = true
  /\ Fs.exists_ (root w') (cwd w') temp_dir = false.
Proof.
  intros Hmk Hrun.
  destruct (mkdtemp_try_target host _ _ _ _ Hmk) as [Habs [Hq Hdir]].
  split; [exact Hdir | ].
  unfold obtener_nombre_y_archivos_repositorio, with_TemporaryDirectory in Hrun.
  unfold bind at 1 in Hrun. rewrite Hmk in Hrun.
  unfold try_finally, cleanup in Hrun.
  match type of Hrun with
  | (let (_, _) := ?body in _) = _ => destruct body as [r2 w2]
  end.
  injection Hrun as <- <-. cbn [root cwd with_root].
  apply rmtree_removes. unfold Fs.start. now rewrite Habs.
Qed.

Lemma scratch_directory_is_released_witness :
  let returned :=
    snd (obtener_nombre_y_archivos_repositorio (Example.host Example.tools)
           "https://example.org/r.git" (Example.world [])) in
  let raised :=
    snd (obtener_nombre_y_archivos_repositorio (Example.host (Example.exits 128))
           "https://example.org/r.git" (Example.world [])) in
  Fs.exists_ (root returned) (cwd returned) "/tmp/tmpk3x9_q0a" = false
  /\ Fs.exists_ (root raised) (cwd raised) "/tmp/tmpk3x9_q0a" = false.
Proof.
  split.
  - eapply (scratch_directory_is_released (Example.host Example.tools)
              "https://example.org/r.git" "/tmp/tmpk3x9_q0a" (Example.world [])).
    + vm_compute. reflexivity.
    + apply surjective_pairing.
  - eapply (scratch_directory_is_released (Example.host (Example.exits 128))
              "https://example.org/r.git" "/tmp/tmpk3x9_q0a" (Example.world [])).
    + vm_compute. reflexivity.
    + apply surjective_pairing.
Defined.

(** ** C3: the destination of the clone *)






(** ** C2: a run on an empty repository *)

Lemma world_eta (w : World) :
  mkWorld (stdin w) (trace w ++ []) (root w) (cwd w) (environ w) = w.
Proof. destruct w. cbn. now rewrite app_nil_r. Qed.

Lemma bind_print (A : Type) (text : string) (k : unit -> M A) (w : World) :
  bind (print text) k w = k tt (log (Printed text) w).
Proof. reflexivity. Qed.

Lemma for_each_print (f : string -> string) (l : list string) :
  forall w,
    for_each l (fun x => print (f x)) w
    = (Return tt,
       mkWorld (stdin w) (trace w ++ map (fun x => Printed (f x)) l)
               (root w) (cwd w) (environ w)).
Proof.
  induction l as [|x l IH]; intro w; cbn [for_each map].
  - unfold ret. now rewrite world_eta.
  - run_monad. rewrite IH. cbn. rewrite <- app_assoc. reflexivity.
Qed.


Lemma which_in_reads (dirs : list string) (name : string) (w : World) :
  exists r, which_in dirs name w = (Return r, w).
Proof.
  induction dirs as [|d dirs IH]; cbn [which_in]; [unfold ret; eauto | ].
  run_monad. destruct (Fs.isfile (root w) (cwd w) (os_path_join d name)); eauto.
Qed.


Lemma setup_python_virtualenv_creates
      (host : Host) (w : World) (err : string) (r : Fs.node) :
  Fs.exists_ (root w) (cwd w) "venv" = false ->
  run_process host (venv_command host)
              (log (Printed "Creando entorno virtual en Python...") w)
  = Exited 0 err r ->
  setup_python_virtualenv host w
  = (Return tt,
     mkWorld (stdin w)
             (trace w
                ++ [Printed "Creando entorno virtual en Python...";
                    Spawned (venv_command host);
                    Printed "Entorno virtual creado.";
                    Printed ("Para activar el entorno virtual, ejecute: "
                               ++ (if String.eqb (os_name host) "nt"
                                   then "venv\Scripts\activate.bat"
                                   else "source venv/bin/activate"))%string])
             r (cwd w) (environ w)).
Proof.
  intros Hno Hrun.
  unfold setup_python_virtualenv, subprocess_run. run_monad. rewrite Hno.
  run_monad. unfold venv_command, log in Hrun. rewrite Hrun. cbn.
  repeat rewrite <- app_assoc. reflexivity.
Qed.













(** * Further properties of the program *)

(** ** The shape of [main] *)

Lemma main_from_url (host : Host) (line : string) (rest : list string) (w : World) :
  stdin w = line :: rest ->
  main host w
  = (valid <- verificar_url_repositorio host (PyStr.strip line) ;;
     if valid then
       print (PyStr.nl ++ "URL verificado correctamente.") ;;
       probe <- obtener_nombre_y_archivos_repositorio host (PyStr.strip line) ;;
       main_after_probe host (PyStr.strip line) probe
     else print "Proceso terminado. Verifique el URL e intente de nuevo.")
      (after_url_prompt w rest).
Proof.
  intro Hin. unfold main. rewrite bind_print. unfold bind at 1, input.
  cbn [stdin trace root cwd environ log]. rewrite Hin.
  unfold after_url_prompt. rewrite <- app_assoc. reflexivity.
Qed.

Lemma main_from_probe
      (host : Host) (line : string) (rest : list string) (w w1 : World) :
  stdin w = line :: rest ->
  verificar_url_repositorio host (PyStr.strip line) (after_url_prompt w rest)
  = (Return true, w1) ->
  main host w
  = (probe <- obtener_nombre_y_archivos_repositorio host (PyStr.strip line) ;;
     main_after_probe host (PyStr.strip line) probe)
      (log (Printed (PyStr.nl ++ "URL verificado correctamente.")%string) w1).
Proof.
  intros Hin Hvalid. rewrite (main_from_url host line rest w Hin).
  unfold bind at 1. rewrite Hvalid. apply bind_print.
Qed.

Lemma main_from_selection
      (host : Host) (line : string) (rest : list string) (w w1 w2 : World)
      (nombre : string) (archivos : list string) :
  stdin w = line :: rest ->
  verificar_url_repositorio host (PyStr.strip line) (after_url_prompt w rest)
  = (Return true, w1) ->
  obtener_nombre_y_archivos_repositorio host (PyStr.strip line)
    (log (Printed (PyStr.nl ++ "URL verificado correctamente.")%string) w1)
  = (Return (nombre, archivos), w2) ->
  truthy nombre = true ->
  archivos <> [] ->
  main host w
  = (carpeta <- seleccionar_carpeta_clonacion (cwd w2) ;;
     main_after_selection host (PyStr.strip line) carpeta)
      (before_selection w2 nombre archivos).
Proof.
  intros Hin Hvalid Hprobe Hnombre Harchivos.
  rewrite (main_from_probe host line rest w w1 Hin Hvalid).
  unfold bind at 1. rewrite Hprobe. unfold main_after_probe. rewrite Hnombre.
  destruct archivos as [|a archivos']; [congruence | ]. cbn [andb].
  do 2 rewrite bind_print. unfold bind at 1.
  rewrite (for_each_print (fun archivo => ("  - " ++ archivo)%string)).
  cbn [stdin trace root cwd environ log].
  unfold before_selection, bind. cbn [stdin trace root cwd environ].
  repeat rewrite <- app_assoc. reflexivity.
Qed.

(** ** The URL prompt and the validator *)

(** X1: with nothing left to read on standard input, [main] shows the
    welcome line and the URL prompt and ends with [EOFError]; no child
    process is started. *)
Theorem main_at_end_of_input (host : Host) (w : World) :
  stdin w = [] ->
  main host w
  = (Raise EOFError,
     mkWorld []
       (trace w
          ++ [Printed "Bienvenido al asistente de configuración de su entorno de desarrollo.";
              Asked "Ingrese el URL del repositorio de Git: "])
       (root w) (cwd w) (environ w)).
Proof.
  intro Hin. unfold main. rewrite bind_print. unfold bind at 1, input, log.
  cbn [stdin trace root cwd environ]. rewrite Hin.
  cbn [stdin trace root cwd environ]. rewrite <- app_assoc. reflexivity.
Qed.

Lemma main_at_end_of_input_witness :
  fst (main (Example.host Example.tools) (Example.world [])) = Raise EOFError.
Proof.
  rewrite (main_at_end_of_input (Example.host Example.tools) (Example.world []));
    reflexivity.
Defined.

(** X2: when the remote listing runs, [verificar_url_repositorio] returns
    whether its exit status is zero; the report is printed exactly when it is
    not, and the listing is the only child process started. *)
Theorem verificar_url_repositorio_by_status
        (host : Host) (url : string) (w : World)
        (rc : Z) (err : string) (r : Fs.node) :
  run_process host (ls_remote url) w = Exited rc err r ->
  verificar_url_repositorio host url w
  = (Return (rc =? 0)%Z,
     mkWorld (stdin w)
       (trace w
          ++ Spawned (ls_remote url)
          :: (if (rc =? 0)%Z then []
              else [Printed "URL no válido o no se pudo conectar al repositorio."]))
       r (cwd w) (environ w)).
Proof.
  intro Hrun.
  unfold verificar_url_repositorio, subprocess_run, try_except, bind, ret, print,
    log, with_root.
  unfold ls_remote in Hrun. rewrite Hrun.
  destruct (rc =? 0)%Z; cbn [andb negb stdin trace root cwd environ].
  - reflexivity.
  - rewrite <- app_assoc. reflexivity.
Qed.

Lemma verificar_url_repositorio_by_status_witness :
  fst (verificar_url_repositorio (Example.host (Example.exits 0))
         "https://example.org/r.git" (Example.world []))
  = Return true
  /\ fst (verificar_url_repositorio (Example.host (Example.exits 128))
            "https://example.org/r.git" (Example.world []))
     = Return false.
Proof.
  split.
  - rewrite (verificar_url_repositorio_by_status
               (Example.host (Example.exits 0)) "https://example.org/r.git"
               (Example.world []) 0 "fatal: error" Example.disk eq_refl).
    reflexivity.
  - rewrite (verificar_url_repositorio_by_status
               (Example.host (Example.exits 128)) "https://example.org/r.git"
               (Example.world []) 128 "fatal: error" Example.disk eq_refl).
    reflexivity.
Defined.

(** X3: when git cannot be started at all (an [OSError], as when it is not
    installed), the validator does not catch it: [main] ends with that
    exception right after the URL prompt, without any report. *)
Theorem main_when_git_cannot_start
        (host : Host) (line : string) (rest : list string) (w : World)
        (k : Fs.errno) (f : string) :
  stdin w = line :: rest ->
  run_process host (ls_remote (PyStr.strip line)) (after_url_prompt w rest)
  = NotStarted (OSError k f) ->
  main host w
  = (Raise (OSError k f),
     log (Spawned (ls_remote (PyStr.strip line))) (after_url_prompt w rest)).
Proof.
  intros Hin Hrun. rewrite (main_from_url host line rest w Hin).
  unfold bind at 1.
  unfold verificar_url_repositorio, subprocess_run, try_except, bind.
  unfold ls_remote in Hrun. rewrite Hrun. reflexivity.
Qed.

Lemma main_when_git_cannot_start_witness :
  fst (main (Example.host (fun _ _ => NotStarted (OSError Fs.ENOENT "git")))
            (Example.world ["https://example.org/r.git"]))
  = Raise (OSError Fs.ENOENT "git").
Proof.
  rewrite (main_when_git_cannot_start
             (Example.host (fun _ _ => NotStarted (OSError Fs.ENOENT "git")))
             "https://example.org/r.git" []
             (Example.world ["https://example.org/r.git"]) Fs.ENOENT "git");
    reflexivity.
Defined.

(** ** The probe *)

Lemma obtener_from_mkdtemp
      (host : Host) (url temp_dir : string) (w w0 : World) :
  mkdtemp host w = (Return temp_dir, w0) ->
  obtener_nombre_y_archivos_repositorio host url w
  = try_finally
      (subprocess_run host (probe_clone url temp_dir) true false ;;
       archivos <- rglob_files temp_dir ;;
       ret (path_name temp_dir, archivos))
      (cleanup temp_dir) w0.
Proof.
  intro Hmk.
  unfold obtener_nombre_y_archivos_repositorio, with_TemporaryDirectory.
  unfold bind at 1. rewrite Hmk. reflexivity.
Qed.

(** X4: when the probe clone exits with a status other than zero, the probe
    raises [CalledProcessError] and [main] does not catch it: the run ends
    with that exception, after the scratch directory has been removed, and
    nothing more is printed or asked. *)
Theorem main_when_probe_clone_fails
        (host : Host) (line : string) (rest : list string) (w w1 w0 : World)
        (temp_dir : string) (rc : Z) (err : string) (r : Fs.node) :
  stdin w = line :: rest ->
  verificar_url_repositorio host (PyStr.strip line) (after_url_prompt w rest)
  = (Return true, w1) ->
  mkdtemp host (log (Printed (PyStr.nl ++ "URL verificado correctamente.")%string) w1)
  = (Return temp_dir, w0) ->
  run_process host (probe_clone (PyStr.strip line) temp_dir) w0 = Exited rc err r ->
  rc <> 0%Z ->
  main host w
  = (Raise (CalledProcessError rc None),
     mkWorld (stdin w0)
             (trace w0 ++ [Spawned (probe_clone (PyStr.strip line) temp_dir)])
             (Fs.rmtree r (cwd w0) temp_dir) (cwd w0) (environ w0)).
Proof.
  intros Hin Hvalid Hmk Hrun Hrc.
  rewrite (main_from_probe host line rest w w1 Hin Hvalid).
  unfold bind at 1.
  rewrite (obtener_from_mkdtemp host _ temp_dir _ w0 Hmk).
  unfold try_finally, cleanup. unfold bind at 1, subprocess_run.
  rewrite Hrun.
  destruct (Z.eqb_spec rc 0) as [E | _]; [contradiction | ].
  reflexivity.
Qed.

Lemma main_when_probe_clone_fails_witness :
  let host :=
    Example.host (fun c w => match c with
                             | Argv ["git"; "ls-remote"; _] => Exited 0 "" (root w)
                             | _ => Exited 128 "fatal" (root w)
                             end) in
  fst (main host (Example.world ["https://example.org/r.git"; "n"; ""]))
  = Raise (CalledProcessError 128 None).
Proof.
  cbn zeta.
  pose (host :=
          Example.host (fun c w => match c with
                                   | Argv ["git"; "ls-remote"; _] => Exited 0 "" (root w)
                                   | _ => Exited 128 "fatal" (root w)
                                   end)).
  pose (w := Example.world ["https://example.org/r.git"; "n"; ""]).
  pose (w1 := snd (verificar_url_repositorio host "https://example.org/r.git"
                     (after_url_prompt w ["n"; ""]))).
  pose (w0 := snd (mkdtemp host
                     (log (Printed (PyStr.nl ++ "URL verificado correctamente.")%string) w1))).
  refine (f_equal fst
            (main_when_probe_clone_fails host "https://example.org/r.git" ["n"; ""]
               w w1 w0 "/tmp/tmpk3x9_q0a" 128 "fatal" (root w0) _ _ _ _ _)).
  - reflexivity.
  - vm_compute. reflexivity.
  - vm_compute. reflexivity.
  - vm_compute. reflexivity.
  - discriminate.
Defined.

(** X5: the name the probe returns is the last component of its scratch
    directory, whatever the URL: it is the name [mkdtemp] chose, not the
    name of the repository. *)
Theorem probe_name_is_the_scratch_name
        (host : Host) (url temp_dir : string) (w w0 w' : World)
        (nombre : string) (archivos : list string) :
  mkdtemp host w = (Return temp_dir, w0) ->
  obtener_nombre_y_archivos_repositorio host url w = (Return (nombre, archivos), w') ->
  nombre = path_name temp_dir.
Proof.
  intros Hmk Hrun.
  rewrite (obtener_from_mkdtemp host url temp_dir w w0 Hmk) in Hrun.
  unfold try_finally, cleanup in Hrun. unfold bind at 1 in Hrun.
  destruct (subprocess_run host (probe_clone url temp_dir) true false w0)
    as [[rc | e] w2]; [ | discriminate].
  unfold bind, rglob_files, os_walk, ret in Hrun.
  injection Hrun as <- _ _. reflexivity.
Qed.

Lemma probe_name_is_the_scratch_name_witness :
  fst (obtener_nombre_y_archivos_repositorio (Example.host Example.tools)
         "https://example.org/mi-proyecto.git" (Example.world []))
  = Return ("tmpk3x9_q0a", ["README.md"])
  /\ "tmpk3x9_q0a" = path_name "/tmp/tmpk3x9_q0a".
Proof.
  split; [vm_compute; reflexivity | ].
  eapply (probe_name_is_the_scratch_name (Example.host Example.tools)
            "https://example.org/mi-proyecto.git" "/tmp/tmpk3x9_q0a"
            (Example.world [])).
  - vm_compute. reflexivity.
  - vm_compute. reflexivity.
Defined.

(** ** The Destination Selector on a yes *)

Lemma isdir_resolves (r : Fs.node) (cwd name : string) :
  Fs.isdir r cwd name = true ->
  PyStr.is_empty name = false
  /\ exists q wr es,
      Fs.walk r (Fs.start cwd name) (Fs.components name) = Fs.Good q
      /\ Fs.find r q = Some (Fs.Dir wr es).
Proof.
  unfold Fs.isdir, Fs.stat, Fs.resolve.
  destruct (PyStr.is_empty name); [discriminate | ].
  destruct (Fs.walk r (Fs.start cwd name) (Fs.components name)) as [q|e];
    [ | discriminate].
  destruct (Fs.find r q) as [[|wr es]|] eqn:Hq; try discriminate.
  - destruct (PyStr.ends_with_slash name); discriminate.
  - intros _. split; [reflexivity | eauto].
Qed.

Lemma makedirs_leaf_existing (name : string) (exist_ok : bool) (w : World) :
  Fs.isdir (root w) (cwd w) name = true ->
  makedirs_leaf name exist_ok w
  = (if exist_ok then Return tt else Raise (OSError Fs.EEXIST name), w).
Proof.
  intro Hdir. destruct (isdir_resolves _ _ _ Hdir) as [Hne [q [wr [es [Hw Hq]]]]].
  unfold makedirs_leaf, try_except, os_mkdir, Fs.mkdir, Fs.resolve.
  rewrite (isdir_no_nul _ _ _ Hdir), Hne, Hw, Hq.
  unfold bind, os_path_isdir. rewrite Hdir.
  destruct exist_ok; reflexivity.
Qed.

(** [os.makedirs] on a directory that exists: nothing with [exist_ok],
    [FileExistsError] without. *)
Lemma os_makedirs_existing (name : string) (exist_ok : bool) (w : World) :
  Fs.isdir (root w) (cwd w) name = true ->
  os_makedirs name exist_ok w
  = (if exist_ok then Return tt else Raise (OSError Fs.EEXIST name), w).
Proof.
  intro Hdir. pose proof (makedirs_leaf_existing name exist_ok w Hdir) as Hleaf.
  destruct (isdir_resolves _ _ _ Hdir) as [Hne [q [wr [es [Hw Hq]]]]].
  unfold os_makedirs.
  destruct (rev (Fs.components name)) as [|tail rhead] eqn:Hrev; [exact Hleaf | ].
  assert (Hcs : Fs.components name = rev rhead ++ [tail]).
  { rewrite <- (rev_involutive (Fs.components name)), Hrev. reflexivity. }
  cbn [makedirs_from]. unfold bind at 1, os_path_exists.
  set (head := unparse (PyStr.starts_with_slash name) (rev rhead)).
  assert (Hcomp : Forall (fun c => component c = true) (rev rhead)).
  { pose proof (components_are_components name) as H. rewrite Hcs in H.
    apply Forall_app in H. tauto. }
  assert (Hskip : negb (PyStr.is_empty head)
                  && negb (Fs.exists_ (root w) (cwd w) head) = false).
  { destruct (PyStr.is_empty head) eqn:Hhe; [reflexivity | ].
    unfold Fs.exists_, Fs.stat, Fs.resolve. rewrite Hhe.
    unfold head at 1.
    rewrite (start_of (cwd w) _ name (unparse_starts_with_slash _ _ Hcomp)).
    unfold head. rewrite (components_unparse _ _ Hcomp).
    rewrite Hcs, walk_app in Hw.
    destruct (Fs.walk (root w) (Fs.start (cwd w) name) (rev rhead)) as [q'|e];
      [ | discriminate].
    cbn [Fs.walk] in Hw.
    destruct (Fs.find (root w) q') as [[|wr' es']|]; try discriminate.
    reflexivity. }
  rewrite Hskip. exact Hleaf.
Qed.

Lemma seleccionar_carpeta_clonacion_yes
      (default_dir answer line : string) (rest : list string) (w : World) :
  stdin w = answer :: line :: rest ->
  yes_stripped answer = true ->
  seleccionar_carpeta_clonacion default_dir w
  = try_except
      (os_makedirs (PyStr.strip line) true ;;
       print ("Carpeta de clonación configurada en: " ++ PyStr.strip line) ;;
       ret (Some (PyStr.strip line)))
      (fun e =>
         match e with
         | OSError Fs.EACCES _ =>
             Some (print "Error: No tienes permisos para crear la carpeta en esa ubicación." ;;
                   ret None)
         | OSError k f =>
             Some (print ("Error: No se pudo crear la carpeta de clonación. Detalles: "
                            ++ str_of_OSError k f) ;;
                   ret None)
         | _ => None
         end)
      (mkWorld rest
         (trace w
            ++ [Printed (PyStr.nl ++ "Carpeta de clonación predeterminada: "
                           ++ default_dir)%string;
                Asked "¿Desea cambiar la carpeta de clonación? (s/n): ";
                Asked "Ingrese la ruta de la carpeta deseada: "])
         (root w) (cwd w) (environ w)).
Proof.
  unfold yes_stripped. intros Hin Hyes.
  unfold seleccionar_carpeta_clonacion. rewrite bind_print.
  unfold bind at 1, input, log. cbn [stdin trace root cwd environ].
  rewrite Hin, Hyes. unfold bind at 1. cbn [stdin trace root cwd environ].
  repeat rewrite <- app_assoc. reflexivity.
Qed.

(** X6: on a yes, a path that is a directory already is accepted as it is:
    the function returns the stripped path and changes nothing in the file
    system. *)
Theorem seleccionar_carpeta_clonacion_existing
        (default_dir answer line : string) (rest : list string) (w : World) :
  stdin w = answer :: line :: rest ->
  yes_stripped answer = true ->
  Fs.isdir (root w) (cwd w) (PyStr.strip line) = true ->
  seleccionar_carpeta_clonacion default_dir w
  = (Return (Some (PyStr.strip line)),
     mkWorld rest
       (trace w
          ++ [Printed (PyStr.nl ++ "Carpeta de clonación predeterminada: "
                         ++ default_dir)%string;
              Asked "¿Desea cambiar la carpeta de clonación? (s/n): ";
              Asked "Ingrese la ruta de la carpeta deseada: ";
              Printed ("Carpeta de clonación configurada en: " ++ PyStr.strip line)%string])
       (root w) (cwd w) (environ w)).
Proof.
  intros Hin Hyes Hdir.
  rewrite (seleccionar_carpeta_clonacion_yes default_dir answer line rest w Hin Hyes).
  unfold try_except. unfold bind at 1.
  rewrite os_makedirs_existing by exact Hdir.
  rewrite bind_print. unfold ret, log. cbn [stdin trace root cwd environ].
  repeat rewrite <- app_assoc. reflexivity.
Qed.

Lemma seleccionar_carpeta_clonacion_existing_witness :
  seleccionar_carpeta_clonacion "/home/u" (Example.world [" S "; " /tmp "; "queda"])
  = (Return (Some "/tmp"),
     mkWorld ["queda"]
       [Printed (PyStr.nl ++ "Carpeta de clonación predeterminada: /home/u")%string;
        Asked "¿Desea cambiar la carpeta de clonación? (s/n): ";
        Asked "Ingrese la ruta de la carpeta deseada: ";
        Printed "Carpeta de clonación configurada en: /tmp"]
       Example.disk "/home/u" []).
Proof.
  apply (seleccionar_carpeta_clonacion_existing "/home/u" " S " " /tmp " ["queda"]
           (Example.world [" S "; " /tmp "; "queda"])); reflexivity.
Defined.







(** The limits of a name at work.  A name of 255 bytes is created; one of
    256 bytes is refused with [ENAMETOOLONG], also where the directory is
    not writable, and the function prints the error and returns [None]; a
    name with a NUL byte raises [ValueError], which no clause of the
    function catches. *)
Example seleccionar_carpeta_clonacion_name_limits :
  let name (n : nat) := string_of_list_ascii (repeat "a"%char n) in
  let run (line : string) :=
    seleccionar_carpeta_clonacion "/home/u" (Example.world ["s"; line]) in
  fst (run (name 255)) = Return (Some (name 255))
  /\ fst (run (name 256)) = Return None
  /\ last (trace (snd (run (name 256)))) (Printed "")
     = Printed ("Error: No se pudo crear la carpeta de clonación. Detalles: "
                  ++ "[Errno 36] File name too long: '" ++ name 256 ++ "'")%string
  /\ root (snd (run (name 256))) = Example.disk
  /\ last (trace (snd (run ("/usr/" ++ name 256)%string))) (Printed "")
     = Printed ("Error: No se pudo crear la carpeta de clonación. Detalles: "
                  ++ "[Errno 36] File name too long: '/usr/" ++ name 256 ++ "'")%string
  /\ run (String "a" (String "000" "b"))
     = (Raise (ValueError "embedded null byte"),
        mkWorld []
          [Printed (PyStr.nl ++ "Carpeta de clonación predeterminada: /home/u")%string;
           Asked "¿Desea cambiar la carpeta de clonación? (s/n): ";
           Asked "Ingrese la ruta de la carpeta deseada: "]
          Example.disk "/home/u" []).
Proof.
  cbn zeta. repeat (split; [vm_compute; reflexivity | ]). vm_compute. reflexivity.
Qed.

Lemma os_makedirs_empty (exist_ok : bool) (w : World) :
  os_makedirs "" exist_ok w = (Raise (OSError Fs.ENOENT ""), w).
Proof. destruct exist_ok; reflexivity. Qed.

(** X9: on a yes, a path that is empty once stripped is refused: the
    function prints the error of [os.makedirs] and returns [None], and
    nothing is created. *)
Theorem seleccionar_carpeta_clonacion_blank_path
        (default_dir answer line : string) (rest : list string) (w : World) :
  stdin w = answer :: line :: rest ->
  yes_stripped answer = true ->
  PyStr.strip line = "" ->
  seleccionar_carpeta_clonacion default_dir w
  = (Return None,
     mkWorld rest
       (trace w
          ++ [Printed (PyStr.nl ++ "Carpeta de clonación predeterminada: "
                         ++ default_dir)%string;
              Asked "¿Desea cambiar la carpeta de clonación? (s/n): ";
              Asked "Ingrese la ruta de la carpeta deseada: ";
              Printed "Error: No se pudo crear la carpeta de clonación. Detalles: [Errno 2] No such file or directory: ''"])
       (root w) (cwd w) (environ w)).
Proof.
  intros Hin Hyes Hblank.
  rewrite (seleccionar_carpeta_clonacion_yes default_dir answer line rest w Hin Hyes).
  rewrite Hblank. unfold try_except. unfold bind at 1.
  rewrite os_makedirs_empty. rewrite bind_print.
  unfold ret, log. cbn [stdin trace root cwd environ].
  repeat rewrite <- app_assoc. reflexivity.
Qed.

Lemma seleccionar_carpeta_clonacion_blank_path_witness :
  fst (seleccionar_carpeta_clonacion "/home/u" (Example.world ["s"; "   "]))
  = Return None.
Proof.
  rewrite (seleccionar_carpeta_clonacion_blank_path "/home/u" "s" "   " []
             (Example.world ["s"; "   "])); reflexivity.
Defined.

(** X10: when the Destination Selector returns [None], [main] prints that
    the selection failed and returns: it does not ask for Enter and starts
    no clone. *)
Theorem main_when_selection_fails
        (host : Host) (line : string) (rest : list string) (w w1 w2 w3 : World)
        (nombre : string) (archivos : list string) :
  stdin w = line :: rest ->
  verificar_url_repositorio host (PyStr.strip line) (after_url_prompt w rest)
  = (Return true, w1) ->
  obtener_nombre_y_archivos_repositorio host (PyStr.strip line)
    (log (Printed (PyStr.nl ++ "URL verificado correctamente.")%string) w1)
  = (Return (nombre, archivos), w2) ->
  truthy nombre = true ->
  archivos <> [] ->
  seleccionar_carpeta_clonacion (cwd w2) (before_selection w2 nombre archivos)
  = (Return None, w3) ->
  main host w
  = (Return tt,
     log (Printed "Error al seleccionar la carpeta de clonación. Proceso terminado.")
         w3).
Proof.
  intros Hin Hvalid Hprobe Hnombre Harchivos Hsel.
  rewrite (main_from_selection host line rest w w1 w2 nombre archivos
             Hin Hvalid Hprobe Hnombre Harchivos).
  unfold bind at 1. rewrite Hsel. reflexivity.
Qed.

Lemma main_when_selection_fails_witness :
  exists w',
    main (Example.host Example.tools)
         (Example.world ["https://example.org/r.git"; "s"; "/usr/local/repo"; ""])
    = (Return tt, w')
    /\ stdin w' = [""]
    /\ spawned w'
       = [ ls_remote "https://example.org/r.git";
           probe_clone "https://example.org/r.git" "/tmp/tmpk3x9_q0a" ].
Proof.
  pose (host := Example.host Example.tools).
  pose (w := Example.world ["https://example.org/r.git"; "s"; "/usr/local/repo"; ""]).
  pose (w1 := snd (verificar_url_repositorio host "https://example.org/r.git"
                     (after_url_prompt w ["s"; "/usr/local/repo"; ""]))).
  pose (w2 := snd (obtener_nombre_y_archivos_repositorio host "https://example.org/r.git"
                     (log (Printed (PyStr.nl ++ "URL verificado correctamente.")%string) w1))).
  pose (w3 := snd (seleccionar_carpeta_clonacion (cwd w2)
                     (before_selection w2 "tmpk3x9_q0a" ["README.md"]))).
  eexists. split.
  - apply (main_when_selection_fails host "https://example.org/r.git"
             ["s"; "/usr/local/repo"; ""] w w1 w2 w3 "tmpk3x9_q0a" ["README.md"]).
    + reflexivity.
    + vm_compute. reflexivity.
    + vm_compute. reflexivity.
    + reflexivity.
    + discriminate.
    + vm_compute. reflexivity.
  - split; vm_compute; reflexivity.
Defined.

(** ** The Cloner *)

Lemma main_from_clone
      (host : Host) (line : string) (rest : list string) (w w1 w2 : World)
      (nombre : string) (archivos : list string)
      (answer enter : string) (rest' : list string) :
  stdin w = line :: rest ->
  verificar_url_repositorio host (PyStr.strip line) (after_url_prompt w rest)
  = (Return true, w1) ->
  obtener_nombre_y_archivos_repositorio host (PyStr.strip line)
    (log (Printed (PyStr.nl ++ "URL verificado correctamente.")%string) w1)
  = (Return (nombre, archivos), w2) ->
  truthy nombre = true ->
  archivos <> [] ->
  stdin w2 = answer :: enter :: rest' ->
  yes_stripped answer = false ->
  truthy (cwd w2) = true ->
  main host w
  = (cloned <- clone_repository host (PyStr.strip line) (cwd w2) ;;
     if cloned then configure_project host (cwd w2) else ret tt)
      (before_clone w2 nombre archivos rest').
Proof.
  intros Hin Hvalid Hprobe Hnombre Harchivos Hin2 Hno Hcwd.
  rewrite (main_from_selection host line rest w w1 w2 nombre archivos
             Hin Hvalid Hprobe Hnombre Harchivos).
  unfold bind at 1.
  rewrite (seleccionar_carpeta_clonacion_declined _ answer (enter :: rest'))
    by (try exact Hno; exact Hin2).
  unfold main_after_selection. rewrite Hcwd. rewrite bind_print.
  unfold bind at 1, input, log, before_selection, before_clone.
  cbn [stdin trace root cwd environ].
  repeat rewrite <- app_assoc. reflexivity.
Qed.

(** X11: when the real clone exits with a status other than zero,
    [clone_into] reports the standard error text of git and returns [False];
    the file preview is not shown. *)
Theorem clone_into_failure
        (host : Host) (repo_url destination_folder : string) (w : World)
        (rc : Z) (err : string) (r : Fs.node) :
  run_process host (real_clone repo_url destination_folder) w = Exited rc err r ->
  rc <> 0%Z ->
  clone_into host repo_url destination_folder w
  = (Return false,
     mkWorld (stdin w)
       (trace w
          ++ [Spawned (real_clone repo_url destination_folder);
              Printed ("Error al clonar el repositorio: " ++ err)%string])
       r (cwd w) (environ w)).
Proof.
  intros Hrun Hrc.
  unfold clone_into. unfold bind at 1. unfold try_except. unfold bind at 1.
  unfold subprocess_run. unfold real_clone in Hrun. rewrite Hrun.
  destruct (Z.eqb_spec rc 0) as [E | _]; [contradiction | ].
  cbn [andb negb]. rewrite bind_print.
  unfold ret, log, with_root. cbn [stdin trace root cwd environ].
  rewrite <- app_assoc. reflexivity.
Qed.

Lemma clone_into_failure_witness :
  clone_into (Example.host (Example.exits 128)) "https://example.org/r.git" "/home/u"
             (Example.world [])
  = (Return false,
     mkWorld []
       [Spawned (real_clone "https://example.org/r.git" "/home/u");
        Printed "Error al clonar el repositorio: fatal: error"]
       Example.disk "/home/u" []).
Proof.
  apply (clone_into_failure (Example.host (Example.exits 128))
           "https://example.org/r.git" "/home/u" (Example.world [])
           128 "fatal: error" Example.disk).
  - reflexivity.
  - discriminate.
Defined.

(** X12: when [clone_repository] returns [False], [main] returns there:
    dependencies are not detected, nothing is installed, [venv] is not
    created. *)
Theorem main_when_clone_fails
        (host : Host) (line : string) (rest : list string) (w w1 w2 w4 : World)
        (nombre : string) (archivos : list string)
        (answer enter : string) (rest' : list string) :
  stdin w = line :: rest ->
  verificar_url_repositorio host (PyStr.strip line) (after_url_prompt w rest)
  = (Return true, w1) ->
  obtener_nombre_y_archivos_repositorio host (PyStr.strip line)
    (log (Printed (PyStr.nl ++ "URL verificado correctamente.")%string) w1)
  = (Return (nombre, archivos), w2) ->
  truthy nombre = true ->
  archivos <> [] ->
  stdin w2 = answer :: enter :: rest' ->
  yes_stripped answer = false ->
  truthy (cwd w2) = true ->
  clone_repository host (PyStr.strip line) (cwd w2)
                   (before_clone w2 nombre archivos rest')
  = (Return false, w4) ->
  main host w = (Return tt, w4).
Proof.
  intros Hin Hvalid Hprobe Hnombre Harchivos Hin2 Hno Hcwd Hclone.
  rewrite (main_from_clone host line rest w w1 w2 nombre archivos answer enter rest'
             Hin Hvalid Hprobe Hnombre Harchivos Hin2 Hno Hcwd).
  unfold bind at 1. rewrite Hclone. reflexivity.
Qed.

Lemma main_when_clone_fails_witness :
  let host :=
    Example.host (fun c w => match c with
                             | Argv ["git"; "clone"; _; _] =>
                                 Exited 128 "fatal: destination path exists" (root w)
                             | _ => Example.tools c w
                             end) in
  exists w',
    main host (Example.world ["https://example.org/r.git"; "n"; ""]) = (Return tt, w')
    /\ last (trace w') (Printed "")
       = Printed "Error al clonar el repositorio: fatal: destination path exists"
    /\ Fs.exists_ (root w') (cwd w') "venv" = false.
Proof.
  cbn zeta.
  pose (host :=
          Example.host (fun c w => match c with
                                   | Argv ["git"; "clone"; _; _] =>
                                       Exited 128 "fatal: destination path exists" (root w)
                                   | _ => Example.tools c w
                                   end)).
  pose (w := Example.world ["https://example.org/r.git"; "n"; ""]).
  pose (w1 := snd (verificar_url_repositorio host "https://example.org/r.git"
                     (after_url_prompt w ["n"; ""]))).
  pose (w2 := snd (obtener_nombre_y_archivos_repositorio host "https://example.org/r.git"
                     (log (Printed (PyStr.nl ++ "URL verificado correctamente.")%string) w1))).
  pose (w4 := snd (clone_repository host "https://example.org/r.git" "/home/u"
                     (before_clone w2 "tmpk3x9_q0a" ["README.md"] []))).
  exists w4. split.
  - apply (main_when_clone_fails host "https://example.org/r.git" ["n"; ""]
             w w1 w2 w4 "tmpk3x9_q0a" ["README.md"] "n" "" []).
    + reflexivity.
    + vm_compute. reflexivity.
    + vm_compute. reflexivity.
    + reflexivity.
    + discriminate.
    + vm_compute. reflexivity.
    + reflexivity.
    + reflexivity.
    + vm_compute. reflexivity.
  - split; vm_compute; reflexivity.
Defined.

(** X13: for a destination that is a directory already, the existence test
    of [clone_repository] is what keeps the creation step silent:
    [create_destination] does nothing, where the [os.makedirs] call it guards
    would raise [FileExistsError]. *)
Theorem create_destination_existing (destination_folder : string) (w : World) :
  Fs.isdir (root w) (cwd w) destination_folder = true ->
  create_destination destination_folder w = (Return tt, w)
  /\ os_makedirs destination_folder false w
     = (Raise (OSError Fs.EEXIST destination_folder), w).
Proof.
  intro Hdir. split.
  - unfold create_destination, bind, os_path_exists.
    assert (Hex : Fs.exists_ (root w) (cwd w) destination_folder = true).
    { unfold Fs.exists_. unfold Fs.isdir in Hdir.
      destruct (Fs.stat (root w) (cwd w) destination_folder);
        [reflexivity | discriminate]. }
    rewrite Hex. reflexivity.
  - exact (os_makedirs_existing destination_folder false w Hdir).
Qed.

Lemma create_destination_existing_witness :
  create_destination "/home/u" (Example.world []) = (Return tt, Example.world [])
  /\ os_makedirs "/home/u" false (Example.world [])
     = (Raise (OSError Fs.EEXIST "/home/u"), Example.world []).
Proof.
  apply (create_destination_existing "/home/u" (Example.world [])). reflexivity.
Defined.

(** ** The file preview *)

Lemma for_each_files (rel : list string) (files : list string) (w : World) :
  for_each files (fun file => print ("-  " ++ PyStr.join_slash (rel ++ [file]))) w
  = (Return tt,
     mkWorld (stdin w)
       (trace w
          ++ map (fun file => Printed ("-  " ++ PyStr.join_slash (rel ++ [file]))%string)
               files)
       (root w) (cwd w) (environ w)).
Proof.
  exact (for_each_print
           (fun file => ("-  " ++ PyStr.join_slash (rel ++ [file]))%string) files w).
Qed.

Lemma for_each_preview (dirs : list (list string * list string * list string)) :
  forall w,
    for_each dirs
      (fun d =>
         match d with
         | (rel, _, files) =>
             if match rel with [] => true | _ => false end
                || existsb (String.eqb (last rel "")) ["src"; "lib"]
             then
               for_each files
                 (fun file => print ("-  " ++ PyStr.join_slash (rel ++ [file])))
             else ret tt
         end) w
    = (Return tt,
       mkWorld (stdin w) (trace w ++ map Printed (preview_lines dirs))
               (root w) (cwd w) (environ w)).
Proof.
  induction dirs as [|[[rel ds] files] dirs IH]; intro w.
  - cbn. unfold ret. now rewrite world_eta.
  - cbn [for_each]. unfold bind at 1.
    unfold preview_lines. cbn [flat_map]. fold (preview_lines dirs).
    destruct (match rel with [] => true | _ => false end
              || existsb (String.eqb (last rel "")) ["src"; "lib"]).
    + rewrite for_each_files. rewrite IH. cbn [stdin trace root cwd environ].
      rewrite map_app, map_map, <- app_assoc. reflexivity.
    + unfold ret. rewrite IH. reflexivity.
Qed.

Lemma show_file_preview_trace (folder_path : string) (w : World) :
  show_file_preview folder_path w
  = (Return tt,
     mkWorld (stdin w)
       (trace w
          ++ Printed (PyStr.nl ++ "Vista previa de archivos en el proyecto:")%string
          :: map Printed (preview_lines (walked folder_path w))
          ++ [Printed (PyStr.nl ++ "Final de la vista previa de archivos.")%string])
       (root w) (cwd w) (environ w)).
Proof.
  unfold show_file_preview. rewrite bind_print.
  unfold bind at 1, os_walk. cbn [root cwd log].
  fold (walked folder_path w). unfold bind at 1.
  rewrite for_each_preview. unfold print, log. cbn [stdin trace root cwd environ].
  repeat rewrite <- app_assoc. reflexivity.
Qed.


(** X15: the preview shows every file that lies directly in the folder, and
    every file of any directory below it whose own name is [src] or [lib],
    by its path relative to the folder. *)
Theorem show_file_preview_lists
        (folder_path : string) (w : World)
        (rel dirs files : list string) (file : string) :
  In (rel, dirs, files) (walked folder_path w) ->
  In file files ->
  rel = [] \/ last rel "" = "src" \/ last rel "" = "lib" ->
  In (Printed ("-  " ++ PyStr.join_slash (rel ++ [file]))%string)
     (trace (snd (show_file_preview folder_path w))).
Proof.
  intros Hdir Hfile Hshown.
  rewrite show_file_preview_trace. cbn [snd trace].
  apply in_or_app. right. right. apply in_or_app. left.
  apply in_map. unfold preview_lines. apply in_flat_map.
  exists (rel, dirs, files). split; [exact Hdir | ].
  assert (Hcond : match rel with [] => true | _ => false end
                  || existsb (String.eqb (last rel "")) ["src"; "lib"] = true).
  { destruct Hshown as [-> | [H | H]]; [reflexivity | | ];
      rewrite H; cbn; apply orb_true_r. }
  rewrite Hcond.
  apply (in_map (fun f => ("-  " ++ PyStr.join_slash (rel ++ [f]))%string)).
  exact Hfile.
Qed.

Lemma show_file_preview_lists_witness :
  let w := Example.world_with
             [("app", Fs.Dir true
                        [("README.md", Fs.File);
                         ("pkg", Fs.Dir true
                                   [("src", Fs.Dir true [("main.py", Fs.File)]);
                                    ("notas.txt", Fs.File)])])] [] in
  In (Printed "-  README.md") (trace (snd (show_file_preview "app" w)))
  /\ In (Printed "-  pkg/src/main.py") (trace (snd (show_file_preview "app" w))).
Proof.
  cbn zeta. split.
  - apply (show_file_preview_lists "app" _ [] ["pkg"] ["README.md"] "README.md").
    + vm_compute. auto.
    + cbn. auto.
    + auto.
  - apply (show_file_preview_lists "app" _ ["pkg"; "src"] [] ["main.py"] "main.py").
    + vm_compute. auto 10.
    + cbn. auto.
    + auto.
Defined.

(** ** The Dependency Detector *)

(** X16: [detect_dependencies] reports an ecosystem exactly when its file
    exists in the project folder: ["Node.js"] for [package.json], ["Python"]
    for [requirements.txt] or [Pipfile], ["Python virtual environment"] for
    [venv]; with a [Pipfile] and no [requirements.txt], ["Python"] is at
    ["Pipfile"]. *)
Theorem detect_dependencies_keys (project_folder : string) (w : World) :
  exists d w',
    detect_dependencies project_folder w = (Return d, w')
    /\ PyDict.mem "Node.js" d
       = Fs.exists_ (root w) (cwd w) (os_path_join project_folder "package.json")
    /\ PyDict.mem "Python" d
       = Fs.exists_ (root w) (cwd w) (os_path_join project_folder "requirements.txt")
         || Fs.exists_ (root w) (cwd w) (os_path_join project_folder "Pipfile")
    /\ PyDict.mem "Python virtual environment" d
       = Fs.exists_ (root w) (cwd w) (os_path_join project_folder "venv")
    /\ (Fs.exists_ (root w) (cwd w) (os_path_join project_folder "requirements.txt")
        = false ->
        Fs.exists_ (root w) (cwd w) (os_path_join project_folder "Pipfile") = true ->
        PyDict.get "Python" d = Some "Pipfile").
Proof.
  unfold detect_dependencies.
  repeat (run_monad; case_exists).
  all: cbn [for_each PyDict.items PyDict.truthy PyDict.set PyDict.empty String.eqb Ascii.eqb Bool.eqb].
  all: run_monad.
  all: do 2 eexists; (split; [reflexivity | ]).
  all: unfold PyDict.mem; cbn [PyDict.get String.eqb Ascii.eqb Bool.eqb orb].
  all: repeat split; intros; congruence.
Qed.

(** X17: [detect_dependencies] only reads and prints: the file system, the
    input and the environment are left as they were, nothing is asked and no
    child process is started.  It prints one line per file found, then the
    summary: one line per entry of the map, in the order of the map, or the
    line saying that nothing was detected when the map is empty. *)
Theorem detect_dependencies_only_reads (project_folder : string) (w : World) :
  exists d,
    detect_dependencies project_folder w
    = (Return d,
       mkWorld (stdin w)
         (trace w
            ++ map Printed
                 ((PyStr.nl ++ "--- Detectando dependencias ---")%string
                    :: detection_lines
                         (Fs.exists_ (root w) (cwd w) (os_path_join project_folder "package.json"))
                         (Fs.exists_ (root w) (cwd w) (os_path_join project_folder "requirements.txt"))
                         (Fs.exists_ (root w) (cwd w) (os_path_join project_folder "Pipfile"))
                         (Fs.exists_ (root w) (cwd w) (os_path_join project_folder "venv"))
                    ++ summary_lines d))
         (root w) (cwd w) (environ w)).
Proof.
  unfold detect_dependencies.
  repeat (run_monad; case_exists).
  all: cbn [for_each PyDict.items PyDict.truthy PyDict.set PyDict.empty String.eqb Ascii.eqb Bool.eqb].
  all: run_monad.
  all: repeat rewrite <- app_assoc; cbn [app].
  all: eexists; (apply f_equal2; [reflexivity | reflexivity]).
Qed.

(** ** The toolchain installer *)

(** X18: [install_dependency] starts its install command exactly when the
    answer is [s] or [S], nothing added: the answer is lowercased but not
    stripped.  On any other answer no child process is started. *)
Theorem install_dependency_runs_on_s_only
        (host : Host) (dependency_name : string) (install_command : list string)
        (manual_instructions answer : string) (rest : list string) (w : World) :
  stdin w = answer :: rest ->
  spawned (snd (install_dependency host dependency_name install_command
                  manual_instructions w))
  = spawned w ++ (if yes_unstripped answer then [Argv install_command] else [])
  /\ (yes_unstripped answer = true <-> answer = "s" \/ answer = "S").
Proof.
  intro Hin. split.
  - unfold install_dependency, yes_unstripped. rewrite bind_print.
    unfold bind at 1, input, log. cbn [stdin trace root cwd environ]. rewrite Hin.
    destruct (String.eqb (PyStr.lower answer) "s").
    + unfold try_except. rewrite bind_print. unfold bind at 1, subprocess_run.
      match goal with
      | |- context [run_process host ?c ?w1] => destruct (run_process host c w1) as [rc err r | e]
      end.
      * destruct (true && negb (rc =? 0)%Z);
          unfold spawned, print, log, with_root; cbn [snd stdin trace root cwd environ];
          repeat rewrite commands_in_app; cbn; repeat rewrite app_nil_r; reflexivity.
      * destruct e; unfold spawned, print, log, bind; cbn [snd stdin trace root cwd environ];
          repeat rewrite commands_in_app; cbn; repeat rewrite app_nil_r; reflexivity.
    + unfold spawned, bind, print, log. cbn [snd stdin trace root cwd environ].
      repeat rewrite commands_in_app. cbn. repeat rewrite app_nil_r. reflexivity.
  - unfold yes_unstripped. rewrite String.eqb_eq. apply lower_is_s.
Qed.

Lemma install_dependency_runs_on_s_only_witness :
  spawned (snd (install_dependency (Example.host (Example.exits 0)) "pip"
                  ["python3"; "-m"; "ensurepip"; "--upgrade"] "Instala pip."
                  (Example.world ["S"])))
  = [Argv ["python3"; "-m"; "ensurepip"; "--upgrade"]]
  /\ spawned (snd (install_dependency (Example.host (Example.exits 0)) "pip"
                     ["python3"; "-m"; "ensurepip"; "--upgrade"] "Instala pip."
                     (Example.world ["si"])))
     = [].
Proof.
  split.
  - apply (install_dependency_runs_on_s_only (Example.host (Example.exits 0)) "pip"
             ["python3"; "-m"; "ensurepip"; "--upgrade"] "Instala pip." "S" []
             (Example.world ["S"])).
    reflexivity.
  - apply (install_dependency_runs_on_s_only (Example.host (Example.exits 0)) "pip"
             ["python3"; "-m"; "ensurepip"; "--upgrade"] "Instala pip." "si" []
             (Example.world ["si"])).
    reflexivity.
Defined.

(** X19: on a yes, when the install command runs, [install_dependency]
    returns normally whatever its exit status: status zero is reported as
    installed, any other status is caught and reported as an error. *)
Theorem install_dependency_reports_the_status
        (host : Host) (dependency_name : string) (install_command : list string)
        (manual_instructions answer : string) (rest : list string) (w : World)
        (rc : Z) (err : string) (r : Fs.node) :
  stdin w = answer :: rest ->
  yes_unstripped answer = true ->
  run_process host (Argv install_command)
    (log (Printed ("Instalando " ++ dependency_name ++ "...")%string)
         (after_install_prompt w dependency_name rest))
  = Exited rc err r ->
  install_dependency host dependency_name install_command manual_instructions w
  = (Return tt,
     mkWorld rest
       (trace w
          ++ [Printed (PyStr.nl ++ "Se necesita instalar " ++ dependency_name ++ ".")%string;
              Asked ("¿Quieres instalar " ++ dependency_name
                       ++ " automáticamente? (s/n): ")%string;
              Printed ("Instalando " ++ dependency_name ++ "...")%string;
              Spawned (Argv install_command);
              Printed (if (rc =? 0)%Z
                       then (dependency_name ++ " se instaló correctamente.")%string
                       else ("Error: No se pudo instalar " ++ dependency_name
                               ++ " automáticamente.")%string)])
       r (cwd w) (environ w)).
Proof.
  unfold yes_unstripped, after_install_prompt. intros Hin Hyes Hrun.
  unfold install_dependency. rewrite bind_print.
  unfold bind at 1, input, log. cbn [stdin trace root cwd environ].
  rewrite Hin, Hyes. unfold try_except. rewrite bind_print.
  unfold bind at 1, subprocess_run, log. cbn [stdin trace root cwd environ].
  unfold log in Hrun. cbn [stdin trace root cwd environ] in Hrun.
  repeat rewrite <- app_assoc in *. cbn [app] in *. rewrite Hrun.
  destruct (rc =? 0)%Z; cbn [andb negb]; unfold print, log, with_root;
    cbn [stdin trace root cwd environ]; repeat rewrite <- app_assoc; reflexivity.
Qed.

Lemma install_dependency_reports_the_status_witness :
  install_dependency (Example.host (Example.exits 1)) "Python"
    ["apt-get"; "install"; "python3"] "Instala Python." (Example.world ["s"; "queda"])
  = (Return tt,
     mkWorld ["queda"]
       [Printed (PyStr.nl ++ "Se necesita instalar Python.")%string;
        Asked "¿Quieres instalar Python automáticamente? (s/n): ";
        Printed "Instalando Python...";
        Spawned (Argv ["apt-get"; "install"; "python3"]);
        Printed "Error: No se pudo instalar Python automáticamente."]
       Example.disk "/home/u" []).
Proof.
  apply (install_dependency_reports_the_status (Example.host (Example.exits 1)) "Python"
           ["apt-get"; "install"; "python3"] "Instala Python." "s" ["queda"]
           (Example.world ["s"; "queda"]) 1 "fatal: error" Example.disk);
    reflexivity.
Defined.

(** X20: on a yes, when the install command cannot be started at all (an
    [OSError], as when the installer program is missing),
    [install_dependency] does not catch it: the exception comes out. *)
Theorem install_dependency_cannot_start
        (host : Host) (dependency_name : string) (install_command : list string)
        (manual_instructions answer : string) (rest : list string) (w : World)
        (k : Fs.errno) (f : string) :
  stdin w = answer :: rest ->
  yes_unstripped answer = true ->
  run_process host (Argv install_command)
    (log (Printed ("Instalando " ++ dependency_name ++ "...")%string)
         (after_install_prompt w dependency_name rest))
  = NotStarted (OSError k f) ->
  fst (install_dependency host dependency_name install_command manual_instructions w)
  = Raise (OSError k f).
Proof.
  unfold yes_unstripped, after_install_prompt. intros Hin Hyes Hrun.
  unfold install_dependency. rewrite bind_print.
  unfold bind at 1, input, log. cbn [stdin trace root cwd environ].
  rewrite Hin, Hyes. unfold try_except. rewrite bind_print.
  unfold bind at 1, subprocess_run, log. cbn [stdin trace root cwd environ].
  unfold log in Hrun. cbn [stdin trace root cwd environ] in Hrun.
  repeat rewrite <- app_assoc in *. cbn [app] in *. rewrite Hrun. reflexivity.
Qed.

Lemma install_dependency_cannot_start_witness :
  fst (install_dependency
         (Example.host (fun _ _ => NotStarted (OSError Fs.ENOENT "npm")))
         "Node.js y npm" ["npm"; "install"; "-g"; "node"]
         "Visita https://nodejs.org para descargar e instalar Node.js y npm."
         (Example.world ["s"]))
  = Raise (OSError Fs.ENOENT "npm").
Proof.
  apply (install_dependency_cannot_start
           (Example.host (fun _ _ => NotStarted (OSError Fs.ENOENT "npm")))
           "Node.js y npm" ["npm"; "install"; "-g"; "node"]
           "Visita https://nodejs.org para descargar e instalar Node.js y npm."
           "s" [] (Example.world ["s"]) Fs.ENOENT "npm");
    reflexivity.
Defined.
(** ** The toolchain checks *)

Lemma which_in_frame (dirs : list string) (name : string) (w w' : World) :
  root w' = root w -> cwd w' = cwd w ->
  fst (which_in dirs name w') = fst (which_in dirs name w).
Proof.
  intros Hr Hc. induction dirs as [|d dirs IH]; cbn [which_in]; [reflexivity | ].
  unfold bind, os_path_isfile. rewrite Hr, Hc.
  destruct (Fs.isfile (root w) (cwd w) (os_path_join d name)); [reflexivity | exact IH].
Qed.

Lemma shutil_which_reads (host : Host) (name : string) (w : World) :
  exists r, shutil_which host name w = (Return r, w) /\ on_path host w name = found r.
Proof.
  unfold on_path, shutil_which.
  destruct (which_in_reads (path_dirs host) name w) as [r Hr].
  exists r. rewrite Hr. split; reflexivity.
Qed.

Lemma on_path_frame (host : Host) (name : string) (w w' : World) :
  root w' = root w -> cwd w' = cwd w -> on_path host w' name = on_path host w name.
Proof.
  intros Hr Hc. unfold on_path, shutil_which.
  now rewrite (which_in_frame (path_dirs host) name w w' Hr Hc).
Qed.

(** X21: when git is not on the [PATH], [install_required_dependencies]
    prints that git is missing and returns, whatever was detected: it asks
    nothing and starts nothing, the project-level installs included. *)
Theorem install_required_dependencies_without_git
        (host : Host) (dependencies : PyDict.t) (w : World) :
  on_path host w "git" = false ->
  install_required_dependencies host dependencies w
  = (Return tt,
     log (Printed "Error: Git no está instalado. Por favor, instala Git y vuelve a intentarlo.")
         w).
Proof.
  intro Hgit. unfold install_required_dependencies. unfold bind at 1.
  destruct (shutil_which_reads host "git" w) as [g [-> Hg]].
  rewrite Hgit in Hg. rewrite <- Hg. reflexivity.
Qed.

Lemma install_required_dependencies_without_git_witness :
  let host := mkHost "posix" "/usr/bin/python3" ["/opt/bin"] "/tmp" ["a"]
                     (Example.exits 0) (fun _ _ => []) in
  install_required_dependencies host
    [("Node.js", "package.json"); ("Python", "requirements.txt")]
    (Example.world ["s"; "s"])
  = (Return tt,
     log (Printed "Error: Git no está instalado. Por favor, instala Git y vuelve a intentarlo.")
         (Example.world ["s"; "s"])).
Proof.
  cbn zeta. apply install_required_dependencies_without_git. reflexivity.
Defined.

(** X22: with git present and Node.js detected (and Python not), the
    toolchain step depends on [node] and [npm] alone: when both are on the
    [PATH] it only says so, when either is missing it offers the install
    through [install_dependency]; the project-level installs follow in both
    cases. *)
Theorem install_required_dependencies_node
        (host : Host) (dependencies : PyDict.t) (w : World) :
  on_path host w "git" = true ->
  PyDict.mem "Node.js" dependencies = true ->
  PyDict.mem "Python" dependencies = false ->
  install_required_dependencies host dependencies w
  = ((if on_path host w "node" && on_path host w "npm"
      then print "Node.js y npm ya están instalados."
      else install_dependency host "Node.js y npm" ["npm"; "install"; "-g"; "node"]
             "Visita https://nodejs.org para descargar e instalar Node.js y npm.") ;;
     install_project_requirements host dependencies) w.
Proof.
  intros Hgit Hnode Hpython.
  unfold install_required_dependencies. unfold bind at 1.
  destruct (shutil_which_reads host "git" w) as [g [-> Hg]].
  rewrite Hgit in Hg. rewrite <- Hg. cbn [negb]. rewrite Hnode, Hpython.
  unfold bind at 1. unfold bind at 1. unfold bind at 1.
  destruct (shutil_which_reads host "node" w) as [n [-> Hn]]. rewrite Hn.
  destruct (found n); cbn [negb andb].
  - unfold bind at 1.
    destruct (shutil_which_reads host "npm" w) as [m [-> Hm]]. rewrite Hm.
    unfold ret. destruct (found m); cbn [negb]; unfold bind; reflexivity.
  - unfold ret, bind. reflexivity.
Qed.

Lemma install_required_dependencies_node_witness :
  asked (snd (install_required_dependencies (Example.host (Example.exits 0))
                [("Node.js", "package.json")] (Example.world ["n"; "n"])))
  = ["¿Quieres instalar Node.js y npm automáticamente? (s/n): ";
     "¿Quieres ejecutar 'npm install' automáticamente? (s/n): "].
Proof.
  rewrite (install_required_dependencies_node (Example.host (Example.exits 0))
             [("Node.js", "package.json")] (Example.world ["n"; "n"]));
    reflexivity.
Defined.

(** X23: with git present and every program of the detected ecosystems on
    the [PATH] ([node] and [npm] for Node.js, [python3] and [pip] for
    Python), the toolchain step asks nothing and starts nothing: the run
    goes straight to the project-level installs. *)
Theorem install_required_dependencies_toolchain_present
        (host : Host) (dependencies : PyDict.t) (w : World) :
  on_path host w "git" = true ->
  (PyDict.mem "Node.js" dependencies = true ->
   on_path host w "node" = true /\ on_path host w "npm" = true) ->
  (PyDict.mem "Python" dependencies = true ->
   on_path host w "python3" = true /\ on_path host w "pip" = true) ->
  install_required_dependencies host dependencies w
  = ((if PyDict.mem "Node.js" dependencies
      then print "Node.js y npm ya están instalados."
      else ret tt) ;;
     install_project_requirements host dependencies) w.
Proof.
  intros Hgit Hnode Hpython.
  unfold install_required_dependencies. unfold bind at 1.
  destruct (shutil_which_reads host "git" w) as [g [-> Hg]].
  rewrite Hgit in Hg. rewrite <- Hg. cbn [negb].
  unfold bind at 1. unfold bind at 3.
  assert (Hpy : forall w1, root w1 = root w -> cwd w1 = cwd w ->
            (if PyDict.mem "Python" dependencies
             then
               python3 <- shutil_which host "python3" ;;
               (if negb (found python3) then
                  install_dependency host "Python" ["apt-get"; "install"; "python3"]
                    "Instala Python desde https://www.python.org/ para obtener la versión adecuada."
                else ret tt) ;;
               pip <- shutil_which host "pip" ;;
               if negb (found pip) then
                 install_dependency host "pip" ["python3"; "-m"; "ensurepip"; "--upgrade"]
                   "Instala pip con el comando 'python3 -m ensurepip --upgrade' o descarga desde https://pip.pypa.io."
               else ret tt
             else ret tt) w1 = (Return tt, w1)).
  { intros w1 Hr Hc. destruct (PyDict.mem "Python" dependencies); [ | reflexivity].
    destruct (Hpython eq_refl) as [Hp3 Hpip].
    unfold bind at 1.
    destruct (shutil_which_reads host "python3" w1) as [p [-> Hp]].
    rewrite (on_path_frame host "python3" w w1 Hr Hc), Hp3 in Hp. rewrite <- Hp.
    cbn [negb]. unfold bind at 1, ret at 1. unfold bind at 1.
    destruct (shutil_which_reads host "pip" w1) as [q [-> Hq]].
    rewrite (on_path_frame host "pip" w w1 Hr Hc), Hpip in Hq. rewrite <- Hq.
    reflexivity. }
  destruct (PyDict.mem "Node.js" dependencies).
  - destruct (Hnode eq_refl) as [Hn Hm].
    unfold bind at 1.
    destruct (shutil_which_reads host "node" w) as [n [-> Hn']].
    rewrite Hn in Hn'. rewrite <- Hn'. cbn [negb].
    unfold bind at 1. unfold bind at 1.
    destruct (shutil_which_reads host "npm" w) as [m [-> Hm']].
    rewrite Hm in Hm'. rewrite <- Hm'. unfold ret at 1. cbn [negb].
    unfold print at 1. unfold bind at 1. rewrite Hpy by reflexivity.
    unfold bind, print. reflexivity.
  - unfold ret at 1. unfold bind at 1. rewrite Hpy by reflexivity.
    unfold bind, ret. reflexivity.
Qed.

Lemma install_required_dependencies_toolchain_present_witness :
  let host := mkHost "posix" "/usr/bin/python3" ["/bin"] "/tmp" ["a"]
                     (Example.exits 0) (fun _ _ => []) in
  let w := mkWorld ["n"; "n"] []
             (Fs.Dir true
                [("bin", Fs.Dir false
                           [("git", Fs.File); ("node", Fs.File); ("npm", Fs.File);
                            ("python3", Fs.File); ("pip", Fs.File)])])
             "/" [] in
  asked (snd (install_required_dependencies host
                [("Node.js", "package.json"); ("Python", "Pipfile")] w))
  = ["¿Quieres ejecutar 'npm install' automáticamente? (s/n): ";
     "¿Quieres ejecutar 'pip install -r requirements.txt' automáticamente? (s/n): "].
Proof.
  cbn zeta.
  rewrite install_required_dependencies_toolchain_present;
    [reflexivity | reflexivity | split; reflexivity | split; reflexivity].
Defined.

(** X24: the project-level install of Python goes by the key of the map,
    not by the file that was found: in a folder with a [Pipfile] and no
    [requirements.txt] (and no [package.json]), the only round of the loop
    offers [pip install -r requirements.txt], and a yes runs it. *)
Theorem pipfile_project_offers_requirements_install
        (host : Host) (project_folder : string) (w : World)
        (answer : string) (rest : list string) (w2 : World) :
  Fs.exists_ (root w) (cwd w) (os_path_join project_folder "package.json") = false ->
  Fs.exists_ (root w) (cwd w) (os_path_join project_folder "requirements.txt") = false ->
  Fs.exists_ (root w) (cwd w) (os_path_join project_folder "Pipfile") = true ->
  (forall line w', exited (run_process host (Shell line) w')) ->
  stdin w2 = answer :: rest ->
  yes_unstripped answer = true ->
  exists d wd w',
    detect_dependencies project_folder w = (Return d, wd)
    /\ PyDict.get "Python" d = Some "Pipfile"
    /\ install_project_requirements host d w2 = (Return tt, w')
    /\ spawned w' = spawned w2 ++ [Shell "pip install -r requirements.txt"]
    /\ stdin w' = rest.
Proof.
  intros Hpkg Hreq Hpip Hsh Hin Hyes.
  assert (Hdet : exists d wd,
             detect_dependencies project_folder w = (Return d, wd)
             /\ PyDict.get "Python" d = Some "Pipfile"
             /\ detected_requirements d
                = [("Python",
                    ("pip install -r requirements.txt",
                     "Ejecuta 'pip install -r requirements.txt' en el entorno virtual."))]).
  { unfold detect_dependencies. run_monad. rewrite Hpkg. run_monad.
    rewrite Hreq. run_monad. rewrite Hpip. run_monad.
    destruct (Fs.exists_ (root w) (cwd w) (os_path_join project_folder "venv"));
      cbn [for_each PyDict.items PyDict.truthy PyDict.set PyDict.empty
           String.eqb Ascii.eqb Bool.eqb];
      run_monad; do 2 eexists; (split; [reflexivity | split; reflexivity]). }
  destruct Hdet as [d [wd [Hrun [Hget Hdetected]]]].
  destruct (install_entries host d Hsh project_requirements [answer] rest w2)
    as [w' [Hinst [Hrest Htrace]]].
  - exact Hin.
  - fold (detected_requirements d). now rewrite Hdetected.
  - exists d, wd, w'. split; [exact Hrun | ]. split; [exact Hget | ].
    split; [exact Hinst | ]. split; [ | exact Hrest].
    fold (detected_requirements d) in Htrace. rewrite Hdetected in Htrace.
    unfold spawned. rewrite Htrace, commands_in_app.
    cbn [combine flat_map fst snd project_events]. rewrite Hyes. reflexivity.
Qed.

Lemma pipfile_project_offers_requirements_install_witness :
  exists d wd w',
    detect_dependencies "app"
      (Example.world_with [("app", Fs.Dir true [("Pipfile", Fs.File)])] [])
    = (Return d, wd)
    /\ PyDict.get "Python" d = Some "Pipfile"
    /\ install_project_requirements (Example.host (Example.exits 1)) d
         (Example.world ["s"])
       = (Return tt, w')
    /\ spawned w' = [Shell "pip install -r requirements.txt"]
    /\ stdin w' = [].
Proof.
  apply (pipfile_project_offers_requirements_install
           (Example.host (Example.exits 1)) "app"
           (Example.world_with [("app", Fs.Dir true [("Pipfile", Fs.File)])] [])
           "s" [] (Example.world ["s"]));
    try reflexivity; intros line w'; exact I.
Defined.
(** ** The virtual environment and the targeted installers *)

(** X25: when [venv] is absent and its creation exits with a status other
    than zero, [setup_python_virtualenv] raises [CalledProcessError]: the
    activation line is not printed. *)
Theorem setup_python_virtualenv_creation_fails
        (host : Host) (w : World) (rc : Z) (err : string) (r : Fs.node) :
  Fs.exists_ (root w) (cwd w) "venv" = false ->
  run_process host (venv_command host)
              (log (Printed "Creando entorno virtual en Python...") w)
  = Exited rc err r ->
  rc <> 0%Z ->
  setup_python_virtualenv host w
  = (Raise (CalledProcessError rc None),
     mkWorld (stdin w)
       (trace w
          ++ [Printed "Creando entorno virtual en Python...";
              Spawned (venv_command host)])
       r (cwd w) (environ w)).
Proof.
  intros Hno Hrun Hrc.
  unfold setup_python_virtualenv. unfold bind at 1, os_path_exists. rewrite Hno.
  cbn [negb]. unfold bind at 1. rewrite bind_print.
  unfold bind at 1, subprocess_run. unfold venv_command in Hrun. rewrite Hrun.
  destruct (Z.eqb_spec rc 0) as [E | _]; [contradiction | ].
  unfold log, with_root. cbn [andb negb stdin trace root cwd environ].
  rewrite <- app_assoc. reflexivity.
Qed.

Lemma setup_python_virtualenv_creation_fails_witness :
  fst (setup_python_virtualenv (Example.host (Example.exits 1)) (Example.world []))
  = Raise (CalledProcessError 1 None).
Proof.
  rewrite (setup_python_virtualenv_creation_fails (Example.host (Example.exits 1))
             (Example.world []) 1 "fatal: error" Example.disk);
    [reflexivity | reflexivity | reflexivity | discriminate].
Defined.

(** X26: starting without [venv], when the creation exits with status zero
    and leaves [venv] in place, a second run right after the first creates
    nothing again: over the two runs the creation is started once. *)
Theorem setup_python_virtualenv_twice_from_scratch
        (host : Host) (w : World) (err : string) (r : Fs.node) :
  Fs.exists_ (root w) (cwd w) "venv" = false ->
  run_process host (venv_command host)
              (log (Printed "Creando entorno virtual en Python...") w)
  = Exited 0 err r ->
  Fs.exists_ r (cwd w) "venv" = true ->
  exists w1 w2,
    setup_python_virtualenv host w = (Return tt, w1)
    /\ setup_python_virtualenv host w1 = (Return tt, w2)
    /\ spawned w2 = spawned w ++ [venv_command host]
    /\ root w2 = r.
Proof.
  intros Hno Hrun Hmade.
  rewrite (setup_python_virtualenv_creates host w err r Hno Hrun).
  eexists. eexists. split; [reflexivity | ].
  split; [apply setup_python_virtualenv_existing; exact Hmade | ].
  split; [ | reflexivity].
  unfold spawned. cbn [trace]. repeat rewrite commands_in_app. cbn.
  repeat rewrite app_nil_r. reflexivity.
Qed.

Lemma setup_python_virtualenv_twice_from_scratch_witness :
  exists w1 w2,
    setup_python_virtualenv (Example.host Example.tools) (Example.world [])
    = (Return tt, w1)
    /\ setup_python_virtualenv (Example.host Example.tools) w1 = (Return tt, w2)
    /\ spawned w2 = [venv_command (Example.host Example.tools)]
    /\ root w2 = Example.disk_with [("venv", Fs.Dir true [])].
Proof.
  apply (setup_python_virtualenv_twice_from_scratch (Example.host Example.tools)
           (Example.world []) "" (Example.disk_with [("venv", Fs.Dir true [])]));
    reflexivity.
Defined.

(** X27: the Python installer is a hard failure: when [requirements.txt]
    is in the working directory and pip exits with a status other than zero,
    [CalledProcessError] comes out and the Node installer that follows is
    never reached, so [npm install] is not started even if [package.json]
    is there. *)
Theorem failing_pip_stops_before_npm
        (host : Host) (w : World) (rc : Z) (err : string) (r : Fs.node) :
  Fs.exists_ (root w) (cwd w) "requirements.txt" = true ->
  run_process host pip_install
    (log (Printed "Se detectó requirements.txt. Instalando dependencias de Python...") w)
  = Exited rc err r ->
  rc <> 0%Z ->
  (install_python_dependencies host ;; install_node_dependencies host) w
  = (Raise (CalledProcessError rc None),
     mkWorld (stdin w)
       (trace w
          ++ [Printed "Se detectó requirements.txt. Instalando dependencias de Python...";
              Spawned pip_install])
       r (cwd w) (environ w)).
Proof.
  intros Hreq Hrun Hrc.
  unfold bind at 1, install_python_dependencies. unfold bind at 1, os_path_exists.
  rewrite Hreq. rewrite bind_print. unfold bind at 1, subprocess_run.
  unfold pip_install in Hrun. rewrite Hrun.
  destruct (Z.eqb_spec rc 0) as [E | _]; [contradiction | ].
  unfold log, with_root. cbn [andb negb stdin trace root cwd environ].
  rewrite <- app_assoc. reflexivity.
Qed.

Lemma failing_pip_stops_before_npm_witness :
  let w := Example.world_with
             [("requirements.txt", Fs.File); ("package.json", Fs.File)] [] in
  spawned (snd ((install_python_dependencies (Example.host (Example.exits 2)) ;;
                 install_node_dependencies (Example.host (Example.exits 2))) w))
  = [pip_install].
Proof.
  cbn zeta.
  rewrite (failing_pip_stops_before_npm (Example.host (Example.exits 2)) _ 2
             "fatal: error"
             (Example.disk_with
                [("requirements.txt", Fs.File); ("package.json", Fs.File)]));
    [reflexivity | reflexivity | reflexivity | discriminate].
Defined.

(** X28: detection looks in the project folder, the Node installer in the
    working directory: with [package.json] in the folder and none in the
    working directory, [detect_dependencies] reports Node.js while
    [install_node_dependencies] skips the install and starts nothing. *)
Theorem detected_in_folder_installed_from_cwd
        (host : Host) (project_folder : string) (w w2 : World) :
  Fs.exists_ (root w) (cwd w) (os_path_join project_folder "package.json") = true ->
  Fs.exists_ (root w2) (cwd w2) "package.json" = false ->
  (exists d wd,
      detect_dependencies project_folder w = (Return d, wd)
      /\ PyDict.get "Node.js" d = Some "package.json")
  /\ install_node_dependencies host w2
     = (Return tt,
        log (Printed "No se detectó package.json. Saltando instalación de dependencias de Node.js.")
            w2).
Proof.
  intros Hfolder Hcwd. split.
  - unfold detect_dependencies. run_monad. rewrite Hfolder.
    repeat (run_monad; case_exists).
    all: cbn [for_each PyDict.items PyDict.truthy PyDict.set PyDict.empty
              String.eqb Ascii.eqb Bool.eqb].
    all: run_monad.
    all: do 2 eexists; split; reflexivity.
  - unfold install_node_dependencies, bind, os_path_exists. rewrite Hcwd. reflexivity.
Qed.

Lemma detected_in_folder_installed_from_cwd_witness :
  let w := Example.world_with [("app", Fs.Dir true [("package.json", Fs.File)])] [] in
  (exists d wd,
      detect_dependencies "/home/u/app" w = (Return d, wd)
      /\ PyDict.get "Node.js" d = Some "package.json")
  /\ spawned (snd (install_node_dependencies (Example.host Example.tools) w)) = [].
Proof.
  cbn zeta.
  destruct (detected_in_folder_installed_from_cwd (Example.host Example.tools)
              "/home/u/app"
              (Example.world_with [("app", Fs.Dir true [("package.json", Fs.File)])] [])
              (Example.world_with [("app", Fs.Dir true [("package.json", Fs.File)])] []))
    as [Hdet Hinst].
  - reflexivity.
  - reflexivity.
  - split; [exact Hdet | ]. rewrite Hinst. reflexivity.
Defined.

(** ** The Cloner on success *)

(** X29: when the real clone exits with status zero, [clone_into] says so,
    shows the file preview of the destination as git left it, and returns
    [True]. *)
Theorem clone_into_success
        (host : Host) (repo_url destination_folder : string) (w : World)
        (err : string) (r : Fs.node) :
  run_process host (real_clone repo_url destination_folder) w = Exited 0 err r ->
  clone_into host repo_url destination_folder w
  = (Return true,
     mkWorld (stdin w)
       (trace w
          ++ [Spawned (real_clone repo_url destination_folder);
              Printed ("Repositorio clonado con éxito en: " ++ destination_folder)%string;
              Printed (PyStr.nl ++ "Vista previa de archivos en el proyecto:")%string]
          ++ map Printed
               (preview_lines (walked destination_folder (with_root r w)))
          ++ [Printed (PyStr.nl ++ "Final de la vista previa de archivos.")%string])
       r (cwd w) (environ w)).
Proof.
  intro Hrun.
  unfold clone_into. unfold bind at 1. unfold try_except. unfold bind at 1.
  unfold subprocess_run. unfold real_clone in Hrun. rewrite Hrun.
  cbn [andb negb Z.eqb]. rewrite bind_print. unfold ret at 1.
  unfold bind at 1. rewrite show_file_preview_trace.
  unfold ret, log, with_root, walked. cbn [stdin trace root cwd environ].
  repeat rewrite <- app_assoc. reflexivity.
Qed.

Lemma clone_into_success_witness :
  clone_into (Example.host Example.tools) "https://example.org/r.git" "/home/u"
             (Example.world [])
  = (Return true,
     mkWorld []
       [Spawned (real_clone "https://example.org/r.git" "/home/u");
        Printed "Repositorio clonado con éxito en: /home/u";
        Printed (PyStr.nl ++ "Vista previa de archivos en el proyecto:")%string;
        Printed "-  README.md";
        Printed (PyStr.nl ++ "Final de la vista previa de archivos.")%string]
       (Example.disk_with [("README.md", Fs.File)]) "/home/u" []).
Proof.
  apply (clone_into_success (Example.host Example.tools) "https://example.org/r.git"
           "/home/u" (Example.world []) ""
           (Example.disk_with [("README.md", Fs.File)])).
  reflexivity.
Defined.
